(** * pyfacebook.ratelimit: a shallow embedding and its checked properties

    The module under study is [src/pyfacebook/ratelimit.py].  It is
    dynamically typed Python, so the embedding works over one universe of
    Python values ([pyval]), an exception-carrying [result], and a small
    state-and-exception monad [M] whose state holds the receiver object
    ([self]) and the records handed to [logging].

    Conventions.
    - [json.loads] is library code.  The trackers take it as a parameter
      [json_loads : string -> pyval + string]: on a [str] it returns the
      decoded value or raises [JSONDecodeError] with a message.  A concrete
      decoder for the integer fragment of JSON ([json.loads]) is used in the
      worked examples.
    - JSON numbers with a fraction or an exponent (Python floats) are outside
      [pyval]; the usage fields are declared [type=int] in the source.
    - [time.time()] is read once by each method that uses it; the reading is
      passed in as [now : Z].
    - A call to [logging] is recorded as level, format string and arguments;
      [str.format] itself is not evaluated. *)

From Stdlib Require Import ZArith String Ascii List Lia Bool.
From stdpp Require Import base option list strings gmap.

Local Open Scope string_scope.
Local Open Scope Z_scope.

(** ** Python values *)

(** Values that reach this module: what [json.loads] produces, plus
    [RateLimitData] instances (five attributes, in declaration order).
    A [PDict] lists its items in insertion order with pairwise distinct
    keys; keys are [str] (as in every JSON object). *)
#[warnings="-register-all"]
Inductive pyval : Type :=
| PNone
| PBool (b : bool)
| PInt (n : Z)
| PStr (s : string)
| PList (l : list pyval)
| PDict (d : list (string * pyval))
| PRateLimitData
    (call_count total_cputime total_time type
     estimated_time_to_regain_access : pyval).

(** Exceptions raised in this module.  Only the decode error's text is
    ever formatted into a log line, so only it carries a message. *)
Inductive exn : Type :=
| TypeError
| AttributeError
| KeyError
| IndexError
| JSONDecodeError (msg : string).

Inductive result (A : Type) : Type :=
| Ok (a : A)
| Raise (e : exn).
Arguments Ok {A} a.
Arguments Raise {A} e.

#[global] Instance result_ret : MRet result := fun A a => Ok a.
#[global] Instance result_bind : MBind result :=
  fun A B f r => match r with Ok a => f a | Raise e => Raise e end.

#[global] Instance result_fmap : FMap result :=
  fun A B f r => match r with Ok a => Ok (f a) | Raise e => Raise e end.

(** ** Logging and the method monad *)

Inductive log_level : Type := DEBUG | ERROR.

Inductive fmt_arg : Type :=
| FVal (v : pyval)
| FExn (e : exn).

Record log_record : Type := LogRecord {
  level : log_level;
  template : string;
  args : list fmt_arg
}.

Record world (O : Type) : Type := World {
  self : O;
  log : list log_record
}.
Arguments World {O} self log.
Arguments self {O} w.
Arguments log {O} w.

Definition M (O A : Type) : Type := world O -> world O * result A.

#[global] Instance M_ret {O} : MRet (M O) := fun A a w => (w, Ok a).
#[global] Instance M_bind {O} : MBind (M O) :=
  fun A B f m w =>
    match m w with
    | (w', Ok a) => f a w'
    | (w', Raise e) => (w', Raise e)
    end.

Definition lift {O A} (r : result A) : M O A := fun w => (w, r).
Definition raise {O A} (e : exn) : M O A := fun w => (w, Raise e).
Definition get_self {O} : M O O := fun w => (w, Ok (self w)).
Definition put_self {O} (o : O) : M O unit :=
  fun w => (World o (log w), Ok tt).

(** [try: body  except <classes>: handler]. *)
Definition try_except {O A}
    (body : M O A) (caught : exn -> bool) (handler : exn -> M O A) : M O A :=
  fun w =>
    match body w with
    | (w', Ok a) => (w', Ok a)
    | (w', Raise e) => if caught e then handler e w' else (w', Raise e)
    end.

(** [logging.<level>(template.format(...))], recorded unformatted. *)
Definition logging {O} (lvl : log_level) (tpl : string) (a : list fmt_arg)
  : M O unit :=
  fun w => (World (self w) (log w ++ [LogRecord lvl tpl a]), Ok tt).

(** [except (TypeError, JSONDecodeError)]. *)
Definition TypeError_or_JSONDecodeError (e : exn) : bool :=
  match e with
  | TypeError | JSONDecodeError _ => true
  | _ => false
  end.

(** ** Operators on Python values *)

(** [int] and [bool] are the numbers of the model ([True == 1]). *)
Definition as_num (v : pyval) : option Z :=
  match v with
  | PInt n => Some n
  | PBool b => Some (if b then 1 else 0)
  | _ => None
  end.

(** [d.get(k)] on the items of a dict. *)
Fixpoint dict_lookup {V} (k : string) (d : list (string * V)) : option V :=
  match d with
  | [] => None
  | (k', v) :: d' => if String.eqb k k' then Some v else dict_lookup k d'
  end.

(** [d[k] = v]: replace in place, or append a new item. *)
Fixpoint dict_set {V} (k : string) (v : V) (d : list (string * V))
  : list (string * V) :=
  match d with
  | [] => [(k, v)]
  | (k', v') :: d' =>
      if String.eqb k k' then (k', v) :: d' else (k', v') :: dict_set k v d'
  end.

(** [a == b]. *)
Fixpoint py_eq (a b : pyval) {struct a} : bool :=
  let fix eq_list (l m : list pyval) {struct l} : bool :=
    match l, m with
    | [], [] => true
    | x :: l', y :: m' => py_eq x y && eq_list l' m'
    | _, _ => false
    end in
  match a, b with
  | PNone, PNone => true
  | PStr s, PStr t => String.eqb s t
  | PList l, PList m => eq_list l m
  | PDict d, PDict e =>
      Nat.eqb (length d) (length e) &&
      (fix eq_items (d : list (string * pyval)) : bool :=
         match d with
         | [] => true
         | (k, v) :: d' =>
             match dict_lookup k e with
             | Some w => py_eq v w && eq_items d'
             | None => false
             end
         end) d
  | PRateLimitData a1 a2 a3 a4 a5, PRateLimitData b1 b2 b3 b4 b5 =>
      py_eq a1 b1 && py_eq a2 b2 && py_eq a3 b3 && py_eq a4 b4 && py_eq a5 b5
  | _, _ =>
      match as_num a, as_num b with
      | Some x, Some y => Z.eqb x y
      | _, _ => false
      end
  end.

(** [a < b].  Numbers compare by value, [str] by code point, lists (and
    the attrs-generated ordering of [RateLimitData], a tuple of its
    attributes) lexicographically: the first pair of unequal elements
    decides, else the lengths.  Everything else is a [TypeError]. *)
Fixpoint py_lt (a b : pyval) {struct a} : result bool :=
  let fix lt_list (l m : list pyval) {struct l} : result bool :=
    match l, m with
    | [], [] => Ok false
    | [], _ :: _ => Ok true
    | _ :: _, [] => Ok false
    | x :: l', y :: m' => if py_eq x y then lt_list l' m' else py_lt x y
    end in
  match a, b with
  | PStr s, PStr t => Ok (String.ltb s t)
  | PList l, PList m => lt_list l m
  | PRateLimitData a1 a2 a3 a4 a5, PRateLimitData b1 b2 b3 b4 b5 =>
      if negb (py_eq a1 b1) then py_lt a1 b1
      else if negb (py_eq a2 b2) then py_lt a2 b2
      else if negb (py_eq a3 b3) then py_lt a3 b3
      else if negb (py_eq a4 b4) then py_lt a4 b4
      else if negb (py_eq a5 b5) then py_lt a5 b5
      else Ok false
  | _, _ =>
      match as_num a, as_num b with
      | Some x, Some y => Ok (Z.ltb x y)
      | _, _ => Raise TypeError
      end
  end.

(** [a > b]. *)
Definition py_gt (a b : pyval) : result bool := py_lt b a.

(** [a + b]. *)
Definition py_add (a b : pyval) : result pyval :=
  match a, b with
  | PStr s, PStr t => Ok (PStr (s ++ t))
  | PList l, PList m => Ok (PList (l ++ m))
  | _, _ =>
      match as_num a, as_num b with
      | Some x, Some y => Ok (PInt (x + y))
      | _, _ => Raise TypeError
      end
  end.

(** [a - b]. *)
Definition py_sub (a b : pyval) : result pyval :=
  match as_num a, as_num b with
  | Some x, Some y => Ok (PInt (x - y))
  | _, _ => Raise TypeError
  end.

(** [max(a, b, c)]: the first argument is the candidate; a later one
    replaces it when it compares greater. *)
Definition py_max (a b c : pyval) : result pyval :=
  g ← py_gt b a;
  let m : pyval := if g : bool then b else a in
  g ← py_gt c m;
  Ok (if g : bool then c else m).

(** ** [get_interval] *)

(** [if cond: then_  else: else_], where evaluating [cond] may raise. *)
Definition py_if {O A} (cond : result bool) (then_ else_ : M O A) : M O A :=
  fun w =>
    match cond with
    | Ok true => then_ w
    | Ok false => else_ w
    | Raise e => (w, Raise e)
    end.

Definition get_interval {O} (usage_count : pyval) : M O pyval :=
  let interval := PInt 1 in
  py_if (py_lt usage_count (PInt 20))
    (let interval := PInt 1 in
     mret interval)
  (py_if (py_lt usage_count (PInt 50))
    (let interval := PInt 3 in
     mret interval)
  (py_if (py_lt usage_count (PInt 80))
    (let interval := PInt 5 in
     mret interval)
  (py_if (py_lt usage_count (PInt 90))
    (let interval := PInt (60 * 5) in
     logging DEBUG "App usage is arrive {0}%, need sleep {1} seconds"
       [FVal usage_count; FVal interval];;
     mret interval)
  (py_if (py_lt usage_count (PInt 100))
    (let interval := PInt (60 * 10) in
     logging DEBUG "App usage is arrive {0}%, need sleep {1} seconds"
       [FVal usage_count; FVal interval];;
     mret interval)
  (py_if (py_gt usage_count (PInt 100))
    (let interval := PInt (60 * 20) in
     logging DEBUG "App usage is arrive {0}%, need sleep {1} seconds"
       [FVal usage_count; FVal interval];;
     mret interval)
    (mret interval)))))).

(** ** Item access, iteration, keyword arguments *)

(** A [str] is held as UTF-8 bytes; a byte [10xxxxxx] continues the
    character started before it. *)
Definition is_continuation (c : ascii) : bool :=
  let n := nat_of_ascii c in ((128 <=? n) && (n <? 192))%nat.

(** Leading continuation bytes, then the characters of [s]. *)
Fixpoint code_points_aux (s : string) : string * list string :=
  match s with
  | EmptyString => (EmptyString, [])
  | String c r =>
      let '(k, cs) := code_points_aux r in
      if is_continuation c then (String c k, cs)
      else (EmptyString, String c k :: cs)
  end.

Definition code_points (s : string) : list string := (code_points_aux s).2.

(** Sequence index [i] of a sequence of length [n]: negative indices
    count from the end. *)
Definition seq_index {A} (l : list A) (i : Z) : result A :=
  let j := if i <? 0 then i + Z.of_nat (length l) else i in
  if j <? 0 then Raise IndexError
  else match l !! Z.to_nat j with
       | Some x => Ok x
       | None => Raise IndexError
       end.

(** [obj[i]] for an [int] index. *)
Definition py_getitem_int (obj : pyval) (i : Z) : result pyval :=
  match obj with
  | PList l => seq_index l i
  | PStr s => PStr <$> seq_index (code_points s) i
  | PDict _ => Raise KeyError
  | _ => Raise TypeError
  end.

(** [obj[k]] for a [str] key. *)
Definition py_getitem_str (obj : pyval) (k : string) : result pyval :=
  match obj with
  | PDict d =>
      match dict_lookup k d with
      | Some v => Ok v
      | None => Raise KeyError
      end
  | _ => Raise TypeError
  end.

(** [obj[k] = v] for a [str] key; the result is [obj] after the
    assignment. *)
Definition py_setitem_str (obj : pyval) (k : string) (v : pyval)
  : result pyval :=
  match obj with
  | PDict d => Ok (PDict (dict_set k v d))
  | _ => Raise TypeError
  end.

(** [obj.get(k, default)]. *)
Definition py_get (obj : pyval) (k : string) (default : pyval)
  : result pyval :=
  match obj with
  | PDict d =>
      match dict_lookup k d with
      | Some v => Ok v
      | None => Ok default
      end
  | _ => Raise AttributeError
  end.

(** [obj.items()]. *)
Definition py_items (obj : pyval) : result (list (string * pyval)) :=
  match obj with
  | PDict d => Ok d
  | _ => Raise AttributeError
  end.

(** The elements [for item in obj] visits. *)
Definition py_iter (obj : pyval) : result (list pyval) :=
  match obj with
  | PList l => Ok l
  | PStr s => Ok (PStr <$> code_points s)
  | PDict d => Ok (PStr <$> d.*1)
  | _ => Raise TypeError
  end.

(** [bool(x)], the test of [if x:]. *)
Definition py_bool (v : pyval) : bool :=
  match v with
  | PNone => false
  | PBool b => b
  | PInt n => negb (n =? 0)
  | PStr s => negb (String.eqb s "")
  | PList l => negb (Nat.eqb (length l) 0)
  | PDict d => negb (Nat.eqb (length d) 0)
  | PRateLimitData _ _ _ _ _ => true
  end.

(** [x is None]. *)
Definition is_None (v : pyval) : bool :=
  match v with PNone => true | _ => false end.

(** [kwargs.get(name, default)]. *)
Definition kwargs_get (kwargs : list (string * pyval)) (name : string)
    (default : pyval) : pyval :=
  match dict_lookup name kwargs with
  | Some v => v
  | None => default
  end.

(** [for x in l: body]. *)
Fixpoint for_each {O A} (l : list A) (body : A -> M O unit) : M O unit :=
  match l with
  | [] => mret tt
  | x :: l' => body x;; for_each l' body
  end.

(** [[f(x) for x in l]]. *)
Fixpoint comprehension {A B} (f : A -> result B) (l : list A)
  : result (list B) :=
  match l with
  | [] => Ok []
  | x :: l' =>
      y ← f x;
      ys ← comprehension f l';
      Ok (y :: ys)
  end.

(** ** [RateLimitData] *)

Module RateLimitData.

(** The [attrib]s of the class, in declaration order. *)
Definition fields : list string :=
  ["call_count"; "total_cputime"; "total_time"; "type";
   "estimated_time_to_regain_access"].

(** The attrs-generated [__init__]: one keyword parameter per field
    with the declared default; any other keyword is a [TypeError].
    [type=...] is an annotation only, nothing is converted or checked. *)
Definition __init__ (kwargs : list (string * pyval)) : result pyval :=
  if forallb (fun k => bool_decide (k ∈ fields)) kwargs.*1 then
    Ok (PRateLimitData
          (kwargs_get kwargs "call_count" (PInt 0))
          (kwargs_get kwargs "total_cputime" (PInt 0))
          (kwargs_get kwargs "total_time" (PInt 0))
          (kwargs_get kwargs "type" PNone)
          (kwargs_get kwargs "estimated_time_to_regain_access" PNone))
  else Raise TypeError.

(** [RateLimitData( **obj )]: the argument after [**] must be a mapping. *)
Definition new (obj : pyval) : result pyval :=
  match obj with
  | PDict kwargs => __init__ kwargs
  | _ => Raise TypeError
  end.

End RateLimitData.

(** [json.loads(s)], given the decoder for [str] arguments: the decoded
    value, or [JSONDecodeError] with the decoder's message; an argument
    that is not text is a [TypeError]. *)
Definition loads {O} (json_loads : string -> pyval + string) (s : pyval)
  : M O pyval :=
  match s with
  | PStr s =>
      match json_loads s with
      | inl data => mret data
      | inr msg => raise (JSONDecodeError msg)
      end
  | _ => raise TypeError
  end.

(** A header mapping: [str] names to values, [str] when they come from
    an HTTP response. *)
Abbreviation headers_t := (gmap string pyval).

(** ** [RateLimit] *)

Module RateLimit.

(** An instance is its [__dict__]. *)
Record instance : Type := Build { __dict__ : gmap string pyval }.

Definition DEFAULT_TIME_WINDOW : Z := 60 * 60.

(** Data attributes of the class body.  The methods and the [info]
    property are the definitions below; the class defines neither
    [__getattr__] nor [__getattribute__]. *)
Definition class_dict : list (string * pyval) :=
  [("DEFAULT_TIME_WINDOW", PInt DEFAULT_TIME_WINDOW)].

(** [self.__dict__[key]]. *)
Definition dict_getitem (key : string) : M instance pyval :=
  s ← get_self;
  match __dict__ s !! key with
  | Some v => mret v
  | None => raise KeyError
  end.

(** [self.__dict__[key] = v]. *)
Definition dict_setitem (key : string) (v : pyval) : M instance unit :=
  s ← get_self;
  put_self (Build (<[key := v]> (__dict__ s))).

(** [self.<name> = v], the default [object.__setattr__]. *)
Definition setattr (name : string) (v : pyval) : M instance unit :=
  dict_setitem name v.

(** [self.<name>] for a data attribute: the instance [__dict__], then
    the class, else [AttributeError]. *)
Definition getattr (name : string) : M instance pyval :=
  s ← get_self;
  match __dict__ s !! name with
  | Some v => mret v
  | None =>
      match dict_lookup name class_dict with
      | Some v => mret v
      | None => raise AttributeError
      end
  end.

Definition __init__ (rate_type : pyval) : instance :=
  let self := Build ∅ in
  let self := Build (<["resources" := PDict []]> (__dict__ self)) in
  Build (<["_type" := rate_type]> (__dict__ self)).

Section Methods.
Variable json_loads : string -> pyval + string.

Definition parse_headers {O} (headers : headers_t) (key : string)
  : M O pyval :=
  let usage := headers !! key in
  match usage with
  | Some usage =>
      if py_bool usage then
        try_except
          (data ← loads json_loads usage;
           mret data)
          TypeError_or_JSONDecodeError
          (fun ex =>
             logging ERROR
               "Exception in parse {0} data error. Usage is: {1}. errors: {2}"
               [FVal (PStr key); FVal usage; FExn ex];;
             mret PNone)
      else mret PNone
  | None => mret PNone
  end.

Definition set_limit (headers : headers_t) : M instance unit :=
  app_usage ← parse_headers headers "x-app-usage";
  (if negb (is_None app_usage) then
     data ← lift (RateLimitData.new app_usage);
     resources ← dict_getitem "resources";
     resources ← lift (py_setitem_str resources "app" data);
     dict_setitem "resources" resources
   else mret tt);;
  business_usage ← parse_headers headers "x-business-use-case-usage";
  if negb (is_None business_usage) then
    its ← lift (py_items business_usage);
    for_each its (fun '(business_id, items) =>
      items ← lift (py_iter items);
      records ← lift (comprehension RateLimitData.new items);
      dict_setitem "resources" (PList records))
  else mret tt.

End Methods.

Definition get_sleep_interval : M instance pyval :=
  call_count ← getattr "call_count";
  total_time ← getattr "total_time";
  total_cputime ← getattr "total_cputime";
  usage_count ← lift (py_max call_count total_time total_cputime);
  get_interval usage_count.

(** The [info] property: the format string and its arguments. *)
Definition info : M instance (string * list pyval) :=
  call_count ← getattr "call_count";
  total_cputime ← getattr "total_cputime";
  total_time ← getattr "total_time";
  mret ("Current Limit is RateLimit(call_count={0},total_cputime={1},total_time={2})",
        [call_count; total_cputime; total_time]).

End RateLimit.

(** ** [InstagramRateLimit] *)

Module InstagramRateLimit.

(** [__init__] sets all five attributes and nothing deletes them, so
    an instance is a record of them. *)
Record instance : Type := Build {
  type : pyval;
  call_count : pyval;
  total_cputime : pyval;
  total_time : pyval;
  reset_at : pyval
}.

Definition DEFAULT_TIME_WINDOW : Z := 60 * 60.

Definition __init__ (kwargs : list (string * pyval)) : instance :=
  {| type := PStr "instagram";
     call_count := kwargs_get kwargs "call_count" (PInt 0);
     total_cputime := kwargs_get kwargs "total_cputime" (PInt 0);
     total_time := kwargs_get kwargs "total_time" (PInt 0);
     reset_at := kwargs_get kwargs "reset_at" (PInt 0) |}.

(** [self.<attribute> = v]. *)
Definition set_call_count (v : pyval) : M instance unit :=
  s ← get_self;
  put_self (Build (type s) v (total_cputime s) (total_time s) (reset_at s)).
Definition set_total_cputime (v : pyval) : M instance unit :=
  s ← get_self;
  put_self (Build (type s) (call_count s) v (total_time s) (reset_at s)).
Definition set_total_time (v : pyval) : M instance unit :=
  s ← get_self;
  put_self (Build (type s) (call_count s) (total_cputime s) v (reset_at s)).
Definition set_reset_at (v : pyval) : M instance unit :=
  s ← get_self;
  put_self (Build (type s) (call_count s) (total_cputime s) (total_time s) v).

Definition default_usage : pyval :=
  PDict [("call_count", PInt 0); ("total_cputime", PInt 0);
         ("total_time", PInt 0); ("estimated_time_to_regain_access", PInt 0)].

Section Methods.
Variable json_loads : string -> pyval + string.

Definition set_limit (headers : headers_t) (instagram_business_id : string)
    (time_time : Z) : M instance unit :=
  let x_business_use_case_usage := headers !! "x-business-use-case-usage" in
  match x_business_use_case_usage with
  | Some x_business_use_case_usage =>
      if py_bool x_business_use_case_usage then
        data ← try_except
          (usage_data ← loads json_loads x_business_use_case_usage;
           entry ← lift (py_get usage_data instagram_business_id
                           (PList [default_usage]));
           lift (py_getitem_int entry 0))
          TypeError_or_JSONDecodeError
          (fun _ =>
             logging DEBUG
               "Can not get rate limit info for {0}. Usage: {1}"
               [FVal (PStr instagram_business_id);
                FVal x_business_use_case_usage];;
             mret default_usage);
        v ← lift (py_getitem_str data "call_count");
        set_call_count v;;
        v ← lift (py_getitem_str data "total_cputime");
        set_total_cputime v;;
        v ← lift (py_getitem_str data "total_time");
        set_total_time v;;
        let now := PInt time_time in
        v ← lift (py_getitem_str data "estimated_time_to_regain_access");
        v ← lift (py_add now v);
        set_reset_at v
      else mret tt
  | None => mret tt
  end.

End Methods.

Definition get_sleep_interval (time_time : Z) : M instance pyval :=
  let now := PInt time_time in
  s ← get_self;
  py_if (py_gt (reset_at s) now)
    (need_sleep ← lift (py_sub (reset_at s) now);
     logging DEBUG "Api call still limited. Maybe remain {} seconds"
       [FVal need_sleep];;
     mret need_sleep)
    (usage_count ← lift (py_max (call_count s) (total_time s) (total_cputime s));
     get_interval usage_count).

(** The [info] property: the format string and its arguments. *)
Definition info : M instance (string * list pyval) :=
  s ← get_self;
  mret ("Current Limit is RateLimit(call_count={0},total_cputime={1},total_time={2},reset_at={3})",
        [call_count s; total_cputime s; total_time s; reset_at s]).

End InstagramRateLimit.

(** ** A decoder for the worked examples *)

(** [json.loads] restricted to JSON documents whose numbers are integers
    and whose strings use no [\u] escape (so no [NaN] or [Infinity]
    either); such documents decode as in Python.  Outside that fragment
    this decoder is not Python's: a float literal or a [\u] escape, which
    Python decodes, is reported here as a decode error, [pyval] having no
    value for a float.  It is applied below to integer-only documents and
    to text that is not JSON at all.  The message
    stands for [str(ex)]; nothing below depends on its text. *)
Module json.

Definition quote : ascii := ascii_of_nat 34.

Definition is_whitespace (c : ascii) : bool :=
  let n := nat_of_ascii c in
  ((n =? 32) || (n =? 9) || (n =? 10) || (n =? 13))%nat.

Fixpoint skip_ws (s : string) : string :=
  match s with
  | String c r => if is_whitespace c then skip_ws r else s
  | EmptyString => s
  end.

Definition is_digit (c : ascii) : bool :=
  let n := nat_of_ascii c in ((48 <=? n) && (n <=? 57))%nat.

Definition digit_value (c : ascii) : Z := Z.of_nat (nat_of_ascii c) - 48.

(** The longest run of digits at the head of [s], read in base ten. *)
Fixpoint digits (acc : Z) (s : string) : Z * string :=
  match s with
  | String c r =>
      if is_digit c then digits (10 * acc + digit_value c) r else (acc, s)
  | EmptyString => (acc, s)
  end.

(** [0|[1-9]\d*]. *)
Definition integer_part (s : string) : option (Z * string) :=
  match s with
  | String c r =>
      if Ascii.eqb c "0" then Some (0, r)
      else if is_digit c then Some (digits 0 s)
      else None
  | EmptyString => None
  end.

(** Does a fraction [\.\d+] or an exponent [[eE][-+]?\d+] follow? *)
Definition float_follows (s : string) : bool :=
  match s with
  | String c (String d r) =>
      if Ascii.eqb c "." then is_digit d
      else if Ascii.eqb c "e" || Ascii.eqb c "E" then
        is_digit d ||
        ((Ascii.eqb d "+" || Ascii.eqb d "-") &&
         match r with String d' _ => is_digit d' | EmptyString => false end)
      else false
  | _ => false
  end.

Definition number (s : string) : (pyval * string) + string :=
  let '(sign, s') :=
    match s with
    | String c r => if Ascii.eqb c "-" then (-1, r) else (1, s)
    | EmptyString => (1, s)
    end in
  match integer_part s' with
  | Some (n, r) =>
      if float_follows r then inr "float literal (not modelled)"
      else inl (PInt (sign * n), r)
  | None => inr "Expecting value"
  end.

Definition simple_escape (c : ascii) : option ascii :=
  if Ascii.eqb c quote then Some quote
  else if Ascii.eqb c "\" then Some "\"%char
  else if Ascii.eqb c "/" then Some "/"%char
  else if Ascii.eqb c "b" then Some (ascii_of_nat 8)
  else if Ascii.eqb c "f" then Some (ascii_of_nat 12)
  else if Ascii.eqb c "n" then Some (ascii_of_nat 10)
  else if Ascii.eqb c "r" then Some (ascii_of_nat 13)
  else if Ascii.eqb c "t" then Some (ascii_of_nat 9)
  else None.

(** The characters up to the closing quote, and what follows it. *)
Fixpoint scanstring (s : string) : (string * string) + string :=
  match s with
  | EmptyString => inr "Unterminated string starting at"
  | String c r =>
      if Ascii.eqb c quote then inl (EmptyString, r)
      else if Ascii.eqb c "\" then
        match r with
        | String e r' =>
            match simple_escape e with
            | Some ch =>
                match scanstring r' with
                | inl (t, rest) => inl (String ch t, rest)
                | inr m => inr m
                end
            | None => inr "Invalid \escape"
            end
        | EmptyString => inr "Unterminated string starting at"
        end
      else if (nat_of_ascii c <? 32)%nat then
        inr "Invalid control character at"
      else
        match scanstring r with
        | inl (t, rest) => inl (String c t, rest)
        | inr m => inr m
        end
  end.

Fixpoint strip_prefix (p s : string) : option string :=
  match p, s with
  | EmptyString, _ => Some s
  | String a p', String b s' =>
      if Ascii.eqb a b then strip_prefix p' s' else None
  | String _ _, EmptyString => None
  end.

(** One value at the head of [s]; [elements] and [members] continue
    an array and an object after their first item has been located. *)
Fixpoint value (fuel : nat) (s : string) : (pyval * string) + string :=
  match fuel with
  | O => inr "nesting too deep"
  | S fuel =>
      match s with
      | EmptyString => inr "Expecting value"
      | String c r =>
          if Ascii.eqb c quote then
            match scanstring r with
            | inl (t, rest) => inl (PStr t, rest)
            | inr m => inr m
            end
          else if Ascii.eqb c "{" then
            match skip_ws r with
            | String c' rest as r' =>
                if Ascii.eqb c' "}" then inl (PDict [], rest)
                else members fuel [] r'
            | EmptyString => members fuel [] EmptyString
            end
          else if Ascii.eqb c "[" then
            match skip_ws r with
            | String c' rest as r' =>
                if Ascii.eqb c' "]" then inl (PList [], rest)
                else elements fuel [] r'
            | EmptyString => elements fuel [] EmptyString
            end
          else
            match strip_prefix "null" s, strip_prefix "true" s,
                  strip_prefix "false" s with
            | Some rest, _, _ => inl (PNone, rest)
            | _, Some rest, _ => inl (PBool true, rest)
            | _, _, Some rest => inl (PBool false, rest)
            | _, _, _ => number s
            end
      end
  end
with elements (fuel : nat) (acc : list pyval) (s : string)
  : (pyval * string) + string :=
  match fuel with
  | O => inr "nesting too deep"
  | S fuel =>
      match value fuel s with
      | inr m => inr m
      | inl (v, r) =>
          match skip_ws r with
          | String c rest =>
              if Ascii.eqb c "]" then inl (PList (acc ++ [v]), rest)
              else if Ascii.eqb c "," then
                elements fuel (acc ++ [v]) (skip_ws rest)
              else inr "Expecting ',' delimiter"
          | EmptyString => inr "Expecting ',' delimiter"
          end
      end
  end
with members (fuel : nat) (acc : list (string * pyval)) (s : string)
  : (pyval * string) + string :=
  match fuel with
  | O => inr "nesting too deep"
  | S fuel =>
      match s with
      | String c r =>
          if Ascii.eqb c quote then
            match scanstring r with
            | inr m => inr m
            | inl (key, r) =>
                match skip_ws r with
                | String c' r =>
                    if Ascii.eqb c' ":" then
                      match value fuel (skip_ws r) with
                      | inr m => inr m
                      | inl (v, r) =>
                          match skip_ws r with
                          | String c'' rest =>
                              if Ascii.eqb c'' "}" then
                                inl (PDict (dict_set key v acc), rest)
                              else if Ascii.eqb c'' "," then
                                members fuel (dict_set key v acc)
                                  (skip_ws rest)
                              else inr "Expecting ',' delimiter"
                          | EmptyString => inr "Expecting ',' delimiter"
                          end
                      end
                    else inr "Expecting ':' delimiter"
                | EmptyString => inr "Expecting ':' delimiter"
                end
            end
          else inr "Expecting property name enclosed in double quotes"
      | EmptyString =>
          inr "Expecting property name enclosed in double quotes"
      end
  end.

Definition loads (s : string) : pyval + string :=
  match value (2 * String.length s + 2) (skip_ws s) with
  | inr m => inr m
  | inl (v, r) =>
      match skip_ws r with
      | EmptyString => inl v
      | String _ _ => inr "Extra data"
      end
  end.

(** JSON text written with ['] for the double quote. *)
Fixpoint text (s : string) : string :=
  match s with
  | EmptyString => EmptyString
  | String c r => String (if Ascii.eqb c "'" then quote else c) (text r)
  end.

End json.

(** * Vocabulary of the statements *)

(** Named states, header mappings, the halves of the methods and the
    predicates the properties below are stated with. *)

(** [frames k m]: running [m] leaves entry [k] of the instance
    [__dict__] as it was, whether [m] returns or raises. *)
Definition frames {A} (k : string) (m : M RateLimit.instance A) : Prop :=
  forall w,
    RateLimit.__dict__ (self (m w).1) !! k = RateLimit.__dict__ (self w) !! k.

(** The states a [RateLimit] goes through: built by [__init__], then any
    calls of its methods, each returning or raising. *)
Inductive reachable (json_loads : string -> pyval + string)
  : world RateLimit.instance -> Prop :=
| reachable_init rate_type log0 :
    reachable json_loads (World (RateLimit.__init__ rate_type) log0)
| reachable_set_limit w headers :
    reachable json_loads w ->
    reachable json_loads (RateLimit.set_limit json_loads headers w).1
| reachable_get_sleep_interval w :
    reachable json_loads w ->
    reachable json_loads (RateLimit.get_sleep_interval w).1
| reachable_info w :
    reachable json_loads w ->
    reachable json_loads (RateLimit.info w).1.

(** A fresh tracker, with nothing logged yet. *)
Definition fresh_RateLimit : world RateLimit.instance :=
  World (RateLimit.__init__ (PStr "app")) [].

(** [{"x-app-usage": '{"call_count":15,"total_cputime":0,"total_time":0}'}]. *)
Definition app_usage_15 : headers_t :=
  {[ "x-app-usage" :=
       PStr (json.text "{'call_count':15,'total_cputime':0,'total_time':0}") ]}.

Definition parse_error_template : string :=
  "Exception in parse {0} data error. Usage is: {1}. errors: {2}".

(** What [parse_headers] records when decoding fails with [ex]. *)
Definition parse_error_logged {O} (key : string) (usage : pyval) (ex : exn)
    (w : world O) : world O :=
  World (self w)
        (log w ++ [LogRecord ERROR parse_error_template
                     [FVal (PStr key); FVal usage; FExn ex]]).

(** The claim as the specification words it: whenever the header is
    present and its text is not valid JSON, the error is logged with the
    raw value and the exception, and nothing is returned. *)
Definition logs_every_undecodable_value
    (json_loads : string -> pyval + string) : Prop :=
  forall (headers : headers_t) (key usage msg : string)
         (w : world RateLimit.instance),
    headers !! key = Some (PStr usage) ->
    json_loads usage = inr msg ->
    RateLimit.parse_headers json_loads headers key w =
    (parse_error_logged key (PStr usage) (JSONDecodeError msg) w, Ok PNone).

(** A fresh entity tracker. *)
Definition fresh_Instagram : world InstagramRateLimit.instance :=
  World (InstagramRateLimit.__init__ []) [].

Definition business_header (raw : string) : headers_t :=
  {[ "x-business-use-case-usage" := PStr (json.text raw) ]}.

Definition app_header (raw : string) : headers_t :=
  {[ "x-app-usage" := PStr (json.text raw) ]}.

(** The two halves of [set_limit], in the order the method runs them. *)
Definition set_app_usage json_loads (headers : headers_t)
  : M RateLimit.instance unit :=
  app_usage ← RateLimit.parse_headers json_loads headers "x-app-usage";
  if negb (is_None app_usage) then
    data ← lift (RateLimitData.new app_usage);
    resources ← RateLimit.dict_getitem "resources";
    resources ← lift (py_setitem_str resources "app" data);
    RateLimit.dict_setitem "resources" resources
  else mret tt.

(** The body of the loop over [business_usage.items()]. *)
Definition replace_resources (item : string * pyval)
  : M RateLimit.instance unit :=
  let '(business_id, items) := item in
  items ← lift (py_iter items);
  records ← lift (comprehension RateLimitData.new items);
  RateLimit.dict_setitem "resources" (PList records).

Definition set_business_usage json_loads (headers : headers_t)
  : M RateLimit.instance unit :=
  business_usage ←
    RateLimit.parse_headers json_loads headers "x-business-use-case-usage";
  if negb (is_None business_usage) then
    its ← lift (py_items business_usage);
    for_each its replace_resources
  else mret tt.

(** A usage object: a JSON object with no key outside the fields of
    [RateLimitData]; a usage array: a JSON array of usage objects. *)
Definition usage_object (v : pyval) : Prop :=
  exists kwargs, v = PDict kwargs /\
                 Forall (fun k => k ∈ RateLimitData.fields) kwargs.*1.

Definition usage_array (v : pyval) : Prop :=
  exists l, v = PList l /\ Forall usage_object l.

(** [resources_set v w]: [w] with [self.__dict__["resources"] = v]. *)
Definition resources_set (v : pyval) (w : world RateLimit.instance)
  : world RateLimit.instance :=
  World (RateLimit.Build (<["resources" := v]> (RateLimit.__dict__ (self w))))
        (log w).

(** [x-app-usage] with [call_count = 15], and business usage for the two
    ids ["1"] and ["2"], one entry each. *)
Definition app_and_two_businesses : headers_t :=
  <["x-business-use-case-usage" :=
      PStr (json.text "{'1': [{'call_count': 1}], '2': [{'call_count': 2}]}")]>
    app_usage_15.

Definition record_with_call_count (n : Z) : pyval :=
  PRateLimitData (PInt n) (PInt 0) (PInt 0) PNone PNone.

(** The claim as the specification words it: after [set_limit] the
    mapping holds one record per array entry across all business ids. *)
Definition all_entries (d : list (string * pyval)) : list pyval :=
  flat_map (fun kv => match kv.2 with PList l => l | _ => [] end) d.

Definition replaces_with_entries_of_all_ids
    (json_loads : string -> pyval + string) : Prop :=
  forall (headers : headers_t) raw d records w,
    headers !! "x-business-use-case-usage" = Some (PStr raw) ->
    json_loads raw = inl (PDict d) ->
    comprehension RateLimitData.new (all_entries d) = Ok records ->
    RateLimit.__dict__ (self (RateLimit.set_limit json_loads headers w).1)
      !! "resources" = Some (PList records).

(** The state [set_limit] leaves when it stores the values [c], [p],
    [t] and the reset time [r]; [type] is never written. *)
Definition usage_stored (c p t r : pyval) (w : world InstagramRateLimit.instance)
  : world InstagramRateLimit.instance :=
  World (InstagramRateLimit.Build (InstagramRateLimit.type (self w)) c p t r)
        (log w).

Definition cannot_get_logged (instagram_business_id : string) (usage : pyval)
    (w : world InstagramRateLimit.instance) : world InstagramRateLimit.instance :=
  World (self w)
        (log w ++ [LogRecord DEBUG
                     "Can not get rate limit info for {0}. Usage: {1}"
                     [FVal (PStr instagram_business_id); FVal usage]]).

(** The [try] block of [set_limit]: the usage record it selects. *)
Definition select_usage json_loads (usage : pyval)
    (instagram_business_id : string) : M InstagramRateLimit.instance pyval :=
  try_except
    (usage_data ← loads json_loads usage;
     entry ← lift (py_get usage_data instagram_business_id
                     (PList [InstagramRateLimit.default_usage]));
     lift (py_getitem_int entry 0))
    TypeError_or_JSONDecodeError
    (fun _ =>
       logging DEBUG "Can not get rate limit info for {0}. Usage: {1}"
         [FVal (PStr instagram_business_id); FVal usage];;
       mret InstagramRateLimit.default_usage).

(** The assignments that follow it. *)
Definition store_usage (time_time : Z) (data : pyval)
  : M InstagramRateLimit.instance unit :=
  v ← lift (py_getitem_str data "call_count");
  InstagramRateLimit.set_call_count v;;
  v ← lift (py_getitem_str data "total_cputime");
  InstagramRateLimit.set_total_cputime v;;
  v ← lift (py_getitem_str data "total_time");
  InstagramRateLimit.set_total_time v;;
  let now := PInt time_time in
  v ← lift (py_getitem_str data "estimated_time_to_regain_access");
  v ← lift (py_add now v);
  InstagramRateLimit.set_reset_at v.

(** An entity tracker that has seen 95% usage and a reset time of 500. *)
Definition used_Instagram : world InstagramRateLimit.instance :=
  World (InstagramRateLimit.__init__
           [("call_count", PInt 95); ("reset_at", PInt 500)]) [].

(** The header of the specification's example: entity ["123"] at 95%
    with 120 seconds to regain access. *)
Definition usage_123 : headers_t :=
  business_header
    "{'123':[{'call_count':95,'total_cputime':10,'total_time':10,'estimated_time_to_regain_access':120}]}".

(** The claim as the specification words it, for the missing header:
    the zero-usage record is stored and [reset_at] becomes the current
    time. *)
Definition missing_header_stores_zero_usage
    (json_loads : string -> pyval + string) : Prop :=
  forall (headers : headers_t) instagram_business_id now
         (w : world InstagramRateLimit.instance),
    headers !! "x-business-use-case-usage" = None ->
    let w' := (InstagramRateLimit.set_limit json_loads headers
                 instagram_business_id now w).1 in
    InstagramRateLimit.call_count (self w') = PInt 0 /\
    InstagramRateLimit.total_cputime (self w') = PInt 0 /\
    InstagramRateLimit.total_time (self w') = PInt 0 /\
    InstagramRateLimit.reset_at (self w') = PInt now.

Definition still_limited_logged (need_sleep : pyval)
    (w : world InstagramRateLimit.instance) : world InstagramRateLimit.instance :=
  World (self w)
        (log w ++ [LogRecord DEBUG
                     "Api call still limited. Maybe remain {} seconds"
                     [FVal need_sleep]]).

(** What [get_interval] records in its three upper tiers. *)
Definition usage_logged {O} (usage_count interval : pyval) (w : world O)
  : world O :=
  World (self w)
        (log w ++ [LogRecord DEBUG
                     "App usage is arrive {0}%, need sleep {1} seconds"
                     [FVal usage_count; FVal interval]]).

(** The record [RateLimitData] builds from keyword arguments it accepts. *)
Definition record_of_kwargs (kwargs : list (string * pyval)) : pyval :=
  PRateLimitData
    (kwargs_get kwargs "call_count" (PInt 0))
    (kwargs_get kwargs "total_cputime" (PInt 0))
    (kwargs_get kwargs "total_time" (PInt 0))
    (kwargs_get kwargs "type" PNone)
    (kwargs_get kwargs "estimated_time_to_regain_access" PNone).

(** A header from which [parse_headers] gets [None]: absent, falsy, not
    text, text that does not decode, or text that decodes to [null]. *)
Definition unusable (json_loads : string -> pyval + string)
    (header : option pyval) : Prop :=
  match header with
  | None => True
  | Some usage =>
      py_bool usage = false \/
      (forall s, usage <> PStr s) \/
      exists s, usage = PStr s /\
                (json_loads s = inl PNone \/ exists msg, json_loads s = inr msg)
  end.

(** * Properties *)

(** ** Worked evaluations *)

Example get_interval_95 :
  get_interval (PInt 95) (World tt []) =
  (World tt [LogRecord DEBUG "App usage is arrive {0}%, need sleep {1} seconds"
               [FVal (PInt 95); FVal (PInt 600)]], Ok (PInt 600)).
Proof. reflexivity. Qed.

Example loads_business :
  json.loads (json.text "{'123': [{'call_count': 95, 'total_time': -1}], 'x': [true, null, 'a\nb']}") =
  inl (PDict [("123", PList [PDict [("call_count", PInt 95); ("total_time", PInt (-1))]]);
              ("x", PList [PBool true; PNone; PStr (String "a" (String (ascii_of_nat 10) "b"))])]).
Proof. reflexivity. Qed.

Example loads_not_json : json.loads "not-json" = inr "Expecting value".
Proof. reflexivity. Qed.

Example loads_duplicate_key :
  json.loads (json.text "{'a': 1, 'b': 2, 'a': 3}") = inl (PDict [("a", PInt 3); ("b", PInt 2)]).
Proof. reflexivity. Qed.

Example loads_trailing : json.loads "01" = inr "Extra data".
Proof. reflexivity. Qed.

(** ** The interval policy *)

Section IntervalPolicy.
Context {O : Type}.
Implicit Types (w : world O) (u k : Z) (v : pyval).

Lemma py_lt_num v u k : as_num v = Some u -> py_lt v (PInt k) = Ok (u <? k).
Proof. destruct v; simpl; intros H; inversion H; reflexivity. Qed.

Lemma py_gt_num v u k : as_num v = Some u -> py_gt v (PInt k) = Ok (k <? u).
Proof.
  unfold py_gt. destruct v; simpl; intros H; inversion H; reflexivity.
Qed.

(** The value [get_interval] returns on a number, as one expression of
    the comparisons it makes. *)
Lemma get_interval_value v u w :
  as_num v = Some u ->
  (get_interval v w).2 =
  Ok (PInt (if u <? 20 then 1 else if u <? 50 then 3 else
            if u <? 80 then 5 else if u <? 90 then 300 else
            if u <? 100 then 600 else if 100 <? u then 1200 else 1)).
Proof.
  intros H. unfold get_interval, py_if.
  rewrite !(py_lt_num v u), (py_gt_num v u) by exact H.
  repeat lazymatch goal with
         | |- context [?a <? ?b] => destruct (a <? b); try reflexivity
         end.
Qed.

(** On anything that is not a number the first comparison raises. *)
Lemma get_interval_not_num v w :
  as_num v = None -> get_interval v w = (w, Raise TypeError).
Proof.
  intros H. unfold get_interval, py_if.
  destruct v; simpl in *; try discriminate; reflexivity.
Qed.

(** The state is touched only by appending log records. *)
Lemma get_interval_self v w : self (get_interval v w).1 = self w.
Proof.
  unfold get_interval, py_if.
  repeat lazymatch goal with
         | |- context [match ?r with Ok _ => _ | Raise _ => _ end] =>
             destruct r as [[|]|]; try reflexivity
         end.
Qed.

End IntervalPolicy.

(** C3.  For every numeric [usage_count] (an [int], or a [bool] read as
    0 or 1), [get_interval] returns 1 below 20 (negative values included),
    3 on [20,50), 5 on [50,80), 300 on [80,90), 600 on [90,100), 1200 above
    100, and 1 at exactly 100. *)
Theorem get_interval_tiers {O} (usage_count : pyval) (u : Z) (w : world O) :
  as_num usage_count = Some u ->
  exists interval : Z,
    (get_interval usage_count w).2 = Ok (PInt interval) /\
    (u < 20 -> interval = 1) /\
    (20 <= u < 50 -> interval = 3) /\
    (50 <= u < 80 -> interval = 5) /\
    (80 <= u < 90 -> interval = 300) /\
    (90 <= u < 100 -> interval = 600) /\
    (100 < u -> interval = 1200) /\
    (u = 100 -> interval = 1).
Proof.
  intros H. eexists. split; [apply get_interval_value, H|].
  repeat split; intros;
    repeat lazymatch goal with
           | |- context [?a <? ?b] => destruct (Z.ltb_spec a b); try lia
           end.
Qed.

Lemma get_interval_tiers_witness :
  exists interval : Z,
    (get_interval (PInt 100) (World tt [])).2 = Ok (PInt interval) /\
    interval = 1.
Proof.
  destruct (get_interval_tiers (PInt 100) 100 (World tt []) eq_refl)
    as (i & Hrun & _ & _ & _ & _ & _ & _ & H100).
  exists i. split; [exact Hrun | apply H100; reflexivity].
Defined.

(** C9 (the code is not monotone).  [get_interval] returns 600 at 99 and
    1 at 100: raising the usage from 99 to 100 lowers the interval. *)
Theorem get_interval_drops_at_100 :
  exists a b x y : Z,
    a <= b /\
    (get_interval (PInt a) (World tt [])).2 = Ok (PInt x) /\
    (get_interval (PInt b) (World tt [])).2 = Ok (PInt y) /\
    y < x.
Proof. exists 99, 100, 600, 1. repeat split; try reflexivity; lia. Qed.

(** The drop at 100 is the only one: towards any other value the policy
    is monotone. *)
Lemma get_interval_monotone_except_100 {O} (a b x y : Z) (w w' : world O) :
  a <= b -> b <> 100 ->
  (get_interval (PInt a) w).2 = Ok (PInt x) ->
  (get_interval (PInt b) w').2 = Ok (PInt y) ->
  x <= y.
Proof.
  intros Hab Hb.
  rewrite (get_interval_value (PInt a) a), (get_interval_value (PInt b) b)
    by reflexivity.
  intros Hx Hy. inversion Hx; inversion Hy; subst; clear Hx Hy.
  repeat lazymatch goal with
         | |- context [?a <? ?b] => destruct (Z.ltb_spec a b); try lia
         end.
Qed.

(** ** [RateLimitData] *)

Lemma kwargs_get_absent kwargs name default :
  dict_lookup name kwargs = None -> kwargs_get kwargs name default = default.
Proof. unfold kwargs_get. intros ->. reflexivity. Qed.

Lemma kwargs_get_present kwargs name default v :
  dict_lookup name kwargs = Some v -> kwargs_get kwargs name default = v.
Proof. unfold kwargs_get. intros ->. reflexivity. Qed.

Lemma RateLimitData_init_ok kwargs :
  Forall (fun k => k ∈ RateLimitData.fields) kwargs.*1 ->
  RateLimitData.__init__ kwargs =
  Ok (PRateLimitData
        (kwargs_get kwargs "call_count" (PInt 0))
        (kwargs_get kwargs "total_cputime" (PInt 0))
        (kwargs_get kwargs "total_time" (PInt 0))
        (kwargs_get kwargs "type" PNone)
        (kwargs_get kwargs "estimated_time_to_regain_access" PNone)).
Proof.
  intros H. unfold RateLimitData.__init__.
  replace (forallb _ _) with true; [reflexivity|].
  symmetry. apply forallb_forall. intros k Hk.
  apply bool_decide_eq_true.
  rewrite Forall_forall in H. apply H, list_elem_of_In, Hk.
Qed.

(** C10.  Building a [RateLimitData] from a JSON object whose keys are
    among the five field names succeeds; each of [call_count],
    [total_cputime], [total_time] the object omits is 0, an omitted [type]
    or [estimated_time_to_regain_access] is [None], and a field the object
    gives is stored as given. *)
Theorem RateLimitData_partial_defaults (kwargs : list (string * pyval)) :
  Forall (fun k => k ∈ RateLimitData.fields) kwargs.*1 ->
  exists c p t ty e : pyval,
    RateLimitData.new (PDict kwargs) = Ok (PRateLimitData c p t ty e) /\
    (dict_lookup "call_count" kwargs = None -> c = PInt 0) /\
    (dict_lookup "total_cputime" kwargs = None -> p = PInt 0) /\
    (dict_lookup "total_time" kwargs = None -> t = PInt 0) /\
    (dict_lookup "type" kwargs = None -> ty = PNone) /\
    (dict_lookup "estimated_time_to_regain_access" kwargs = None ->
     e = PNone) /\
    (forall v, dict_lookup "call_count" kwargs = Some v -> c = v) /\
    (forall v, dict_lookup "total_cputime" kwargs = Some v -> p = v) /\
    (forall v, dict_lookup "total_time" kwargs = Some v -> t = v).
Proof.
  intros H. do 5 eexists. split.
  - simpl. apply RateLimitData_init_ok, H.
  - repeat split; intros;
      first [by apply kwargs_get_absent | by apply kwargs_get_present].
Qed.

Lemma RateLimitData_partial_defaults_witness :
  exists c p ty e : pyval,
    RateLimitData.new
      (PDict [("call_count", PInt 15); ("total_cputime", PInt 2)]) =
    Ok (PRateLimitData c p (PInt 0) ty e).
Proof.
  destruct (RateLimitData_partial_defaults
              [("call_count", PInt 15); ("total_cputime", PInt 2)])
    as (c & p & t & ty & e & Hnew & _ & _ & Ht & _).
  - repeat constructor; apply bool_decide_eq_true; reflexivity.
  - exists c, p, ty, e. rewrite Hnew, (Ht eq_refl). reflexivity.
Defined.

(** ** [RateLimit]: what the methods leave alone *)

Section Frames.
Variable k : string.
Context {A B : Type}.

Lemma frames_ret (a : A) : frames k (mret a).
Proof. intros w. reflexivity. Qed.

Lemma frames_lift (r : result A) : frames k (lift r).
Proof. intros w. reflexivity. Qed.

Lemma frames_raise (e : exn) : frames k (raise e : M _ A).
Proof. intros w. reflexivity. Qed.

Lemma frames_bind (m : M RateLimit.instance A) (f : A -> M RateLimit.instance B) :
  frames k m -> (forall a, frames k (f a)) -> frames k (m ≫= f).
Proof.
  intros Hm Hf w. unfold mbind, M_bind.
  specialize (Hm w). destruct (m w) as [w' [a|e]]; simpl in *.
  - rewrite Hf. exact Hm.
  - exact Hm.
Qed.

Lemma frames_try_except (body : M RateLimit.instance A) caught handler :
  frames k body -> (forall e, frames k (handler e)) ->
  frames k (try_except body caught handler).
Proof.
  intros Hb Hh w. unfold try_except.
  specialize (Hb w). destruct (body w) as [w' [a|e]]; simpl in *.
  - exact Hb.
  - destruct (caught e); [rewrite Hh|]; exact Hb.
Qed.

Lemma frames_for_each (l : list A) (body : A -> M RateLimit.instance unit) :
  (forall x, frames k (body x)) -> frames k (for_each l body).
Proof.
  intros Hb. induction l as [|x l IH]; simpl.
  - intros w. reflexivity.
  - intros w. unfold mbind, M_bind.
    specialize (Hb x w). destruct (body x w) as [w' [[]|e]]; simpl in *.
    + rewrite IH. exact Hb.
    + exact Hb.
Qed.
End Frames.

Lemma frames_logging k lvl tpl a : frames k (logging lvl tpl a).
Proof. intros w. reflexivity. Qed.

Lemma frames_dict_getitem k key : frames k (RateLimit.dict_getitem key).
Proof.
  intros w. unfold RateLimit.dict_getitem, mbind, M_bind, get_self. simpl.
  destruct (RateLimit.__dict__ (self w) !! key); reflexivity.
Qed.

Lemma frames_dict_setitem k key v :
  k <> key -> frames k (RateLimit.dict_setitem key v).
Proof.
  intros Hne w. unfold RateLimit.dict_setitem, mbind, M_bind, get_self. simpl.
  apply lookup_insert_ne. congruence.
Qed.

Lemma frames_loads k json_loads s : frames k (loads json_loads s).
Proof.
  intros w. unfold loads.
  destruct s; try reflexivity. destruct (json_loads s); reflexivity.
Qed.

Lemma frames_parse_headers k json_loads headers key :
  frames k (RateLimit.parse_headers json_loads headers key).
Proof.
  unfold RateLimit.parse_headers.
  destruct (headers !! key) as [usage|]; [|apply frames_ret].
  destruct (py_bool usage); [|apply frames_ret].
  apply frames_try_except.
  - apply frames_bind; [apply frames_loads | intros; apply frames_ret].
  - intros e. apply frames_bind; [apply frames_logging | intros; apply frames_ret].
Qed.

(** [set_limit] writes no entry of the instance [__dict__] but
    ["resources"]. *)
Lemma frames_set_limit k json_loads headers :
  k <> "resources" -> frames k (RateLimit.set_limit json_loads headers).
Proof.
  intros Hne. unfold RateLimit.set_limit.
  apply frames_bind; [apply frames_parse_headers | intros app_usage].
  apply frames_bind.
  { destruct (negb (is_None app_usage)); [|apply frames_ret].
    apply frames_bind; [apply frames_lift | intros data].
    apply frames_bind; [apply frames_dict_getitem | intros resources].
    apply frames_bind; [apply frames_lift | intros resources'].
    apply frames_dict_setitem, Hne. }
  intros _.
  apply frames_bind; [apply frames_parse_headers | intros business_usage].
  destruct (negb (is_None business_usage)); [|apply frames_ret].
  apply frames_bind; [apply frames_lift | intros its].
  apply frames_for_each. intros [business_id items].
  apply frames_bind; [apply frames_lift | intros l].
  apply frames_bind; [apply frames_lift | intros records].
  apply frames_dict_setitem, Hne.
Qed.

(** ** [RateLimit]: the usage attributes *)

Lemma getattr_missing name (w : world RateLimit.instance) :
  RateLimit.__dict__ (self w) !! name = None ->
  dict_lookup name RateLimit.class_dict = None ->
  RateLimit.getattr name w = (w, Raise AttributeError).
Proof.
  intros Hi Hc. unfold RateLimit.getattr, mbind, M_bind, get_self.
  rewrite Hi, Hc. reflexivity.
Qed.

Lemma get_sleep_interval_no_call_count (w : world RateLimit.instance) :
  RateLimit.__dict__ (self w) !! "call_count" = None ->
  RateLimit.get_sleep_interval w = (w, Raise AttributeError).
Proof.
  intros H. unfold RateLimit.get_sleep_interval.
  unfold mbind at 1. unfold M_bind.
  rewrite getattr_missing by (exact H || reflexivity). reflexivity.
Qed.

Lemma info_no_call_count (w : world RateLimit.instance) :
  RateLimit.__dict__ (self w) !! "call_count" = None ->
  RateLimit.info w = (w, Raise AttributeError).
Proof.
  intros H. unfold RateLimit.info.
  unfold mbind at 1. unfold M_bind.
  rewrite getattr_missing by (exact H || reflexivity). reflexivity.
Qed.

Lemma reachable_no_call_count json_loads w :
  reachable json_loads w ->
  RateLimit.__dict__ (self w) !! "call_count" = None.
Proof.
  induction 1 as [rate_type log0 | w headers _ IH | w _ IH | w _ IH].
  - reflexivity.
  - rewrite frames_set_limit by discriminate. exact IH.
  - rewrite get_sleep_interval_no_call_count; assumption.
  - rewrite info_no_call_count; assumption.
Qed.

(** C2.  In every state a [RateLimit] can reach through [__init__] and
    any sequence of method calls (successful or not), both
    [get_sleep_interval()] and [info] raise [AttributeError] and leave the
    state as it was. *)
Theorem RateLimit_usage_attributes_never_set json_loads w :
  reachable json_loads w ->
  RateLimit.get_sleep_interval w = (w, Raise AttributeError) /\
  RateLimit.info w = (w, Raise AttributeError).
Proof.
  intros H. apply reachable_no_call_count in H. split.
  - apply get_sleep_interval_no_call_count, H.
  - apply info_no_call_count, H.
Qed.

Example set_limit_app_usage_15 :
  RateLimit.set_limit json.loads app_usage_15 fresh_RateLimit =
  (World (RateLimit.Build
            (<["resources" :=
                 PDict [("app", PRateLimitData (PInt 15) (PInt 0) (PInt 0)
                                  PNone PNone)]]>
               (RateLimit.__dict__ (RateLimit.__init__ (PStr "app")))))
         [],
   Ok tt).
Proof. vm_compute. reflexivity. Qed.

Lemma RateLimit_usage_attributes_never_set_witness :
  let w := (RateLimit.set_limit json.loads app_usage_15 fresh_RateLimit).1 in
  RateLimit.get_sleep_interval w = (w, Raise AttributeError) /\
  RateLimit.info w = (w, Raise AttributeError).
Proof.
  apply (RateLimit_usage_attributes_never_set json.loads).
  apply reachable_set_limit, reachable_init.
Defined.

(** C1 (the code does not do this).  On a tracker that never saw usage
    data, and on one whose [set_limit] has just stored
    [call_count = 15], [get_sleep_interval()] raises [AttributeError]
    where the interval 1 is expected. *)
Theorem RateLimit_get_sleep_interval_raises :
  RateLimit.get_sleep_interval fresh_RateLimit =
    (fresh_RateLimit, Raise AttributeError) /\
  (RateLimit.set_limit json.loads ∅ fresh_RateLimit) =
    (fresh_RateLimit, Ok tt) /\
  (RateLimit.set_limit json.loads app_usage_15 fresh_RateLimit).2 = Ok tt /\
  (RateLimit.get_sleep_interval
     (RateLimit.set_limit json.loads app_usage_15 fresh_RateLimit).1).2 =
    Raise AttributeError.
Proof. repeat split; vm_compute; reflexivity. Qed.

(** ** The header parser *)

(** C8, as amended.  [parse_headers(headers, key)] returns [None] when
    [key] is absent; when the value is truthy and is text that is not valid
    JSON, or is not text at all, it logs an error holding the key, the raw
    value and the exception, and returns [None]; when the value is present
    but falsy (the empty string, [0]) the guard [if usage:] returns [None]
    without decoding or logging; it never raises. *)
Theorem parse_headers_recovers json_loads {O} (headers : headers_t)
    (key : string) (w : world O) :
  (headers !! key = None ->
   RateLimit.parse_headers json_loads headers key w = (w, Ok PNone)) /\
  (forall usage msg,
     headers !! key = Some (PStr usage) -> usage <> "" ->
     json_loads usage = inr msg ->
     RateLimit.parse_headers json_loads headers key w =
     (parse_error_logged key (PStr usage) (JSONDecodeError msg) w, Ok PNone)) /\
  (forall usage,
     headers !! key = Some usage -> py_bool usage = true ->
     (forall s, usage <> PStr s) ->
     RateLimit.parse_headers json_loads headers key w =
     (parse_error_logged key usage TypeError w, Ok PNone)) /\
  (forall usage,
     headers !! key = Some usage -> py_bool usage = false ->
     RateLimit.parse_headers json_loads headers key w = (w, Ok PNone)) /\
  (exists data, (RateLimit.parse_headers json_loads headers key w).2 = Ok data).
Proof.
  unfold RateLimit.parse_headers, try_except, loads, mbind, M_bind.
  repeat split.
  - intros ->. reflexivity.
  - intros usage msg -> Hne Hmsg. simpl.
    destruct (String.eqb_spec usage ""); [contradiction|]. simpl.
    rewrite Hmsg. reflexivity.
  - intros usage -> Hb Hns. rewrite Hb.
    destruct usage; try reflexivity. exfalso. eapply Hns. reflexivity.
  - intros usage -> Hb. rewrite Hb. reflexivity.
  - destruct (headers !! key) as [usage|]; [|eexists; reflexivity].
    destruct (py_bool usage); [|eexists; reflexivity].
    destruct usage; try (eexists; reflexivity).
    destruct (json_loads s); eexists; reflexivity.
Qed.

Lemma parse_headers_recovers_witness :
  RateLimit.parse_headers json.loads
    ({[ "x-app-usage" := PStr "not-json" ]} : headers_t) "x-app-usage"
    fresh_RateLimit =
  (parse_error_logged "x-app-usage" (PStr "not-json")
     (JSONDecodeError "Expecting value") fresh_RateLimit,
   Ok PNone).
Proof.
  apply (parse_headers_recovers json.loads
           ({[ "x-app-usage" := PStr "not-json" ]} : headers_t)
           "x-app-usage" fresh_RateLimit).
  - reflexivity.
  - discriminate.
  - reflexivity.
Defined.

(** C8, as stated, fails: the empty string is present and is not valid
    JSON, yet [parse_headers] returns [None] for it without logging
    anything, because [if usage:] never lets it reach the decoder. *)
Lemma parse_headers_empty_value_not_logged :
  json.loads "" = inr "Expecting value" /\
  RateLimit.parse_headers json.loads
    ({[ "x-app-usage" := PStr "" ]} : headers_t) "x-app-usage"
    fresh_RateLimit = (fresh_RateLimit, Ok PNone) /\
  ~ logs_every_undecodable_value json.loads.
Proof.
  split; [reflexivity|]. split; [reflexivity|].
  intros Hclaim.
  specialize (Hclaim ({[ "x-app-usage" := PStr "" ]} : headers_t)
                "x-app-usage" "" "Expecting value" fresh_RateLimit
                eq_refl eq_refl).
  vm_compute in Hclaim. discriminate Hclaim.
Qed.

(** ** Malformed payloads that escape *)

(** C5 (the code does not do this).  [set_limit] raises to its caller on
    payloads that are valid JSON of the wrong shape: an unknown field or a
    non-object in [x-app-usage] ([TypeError]), a non-object business
    payload ([AttributeError]), an entity with an empty usage array
    ([IndexError]) and a usage object with a field missing ([KeyError],
    after [call_count] has already been overwritten). *)
Theorem set_limit_raises_on_malformed_payload (now : Z) :
  (RateLimit.set_limit json.loads (app_header "{'foo': 1}")
     fresh_RateLimit).2 = Raise TypeError /\
  (RateLimit.set_limit json.loads (app_header "[1]")
     fresh_RateLimit).2 = Raise TypeError /\
  (RateLimit.set_limit json.loads (business_header "[1]")
     fresh_RateLimit).2 = Raise AttributeError /\
  (InstagramRateLimit.set_limit json.loads (business_header "[1]") "123" now
     fresh_Instagram).2 = Raise AttributeError /\
  (InstagramRateLimit.set_limit json.loads (business_header "{'123': []}")
     "123" now fresh_Instagram).2 = Raise IndexError /\
  InstagramRateLimit.set_limit json.loads
    (business_header "{'123': [{'call_count': 7}]}") "123" now
    fresh_Instagram =
  (World (InstagramRateLimit.Build (PStr "instagram") (PInt 7) (PInt 0)
            (PInt 0) (PInt 0)) [],
   Raise KeyError).
Proof. repeat split; vm_compute; reflexivity. Qed.

(** ** [RateLimit.set_limit]: the business-use-case update *)

Lemma M_bind_assoc {O A B C} (m : M O A) (f : A -> M O B) (g : B -> M O C) w :
  ((m ≫= f) ≫= g) w = (m ≫= (fun a => f a ≫= g)) w.
Proof. unfold mbind, M_bind. destruct (m w) as [w' [a|e]]; reflexivity. Qed.

Lemma set_limit_halves json_loads headers w :
  RateLimit.set_limit json_loads headers w =
  (set_app_usage json_loads headers;; set_business_usage json_loads headers) w.
Proof. symmetry. unfold set_app_usage. apply M_bind_assoc. Qed.

Lemma resources_set_twice v v' w :
  resources_set v (resources_set v' w) = resources_set v w.
Proof.
  unfold resources_set. simpl. f_equal. f_equal. apply insert_insert_eq.
Qed.

Lemma comprehension_usage_objects (l : list pyval) :
  Forall usage_object l ->
  exists records,
    comprehension RateLimitData.new l = Ok records /\
    Forall2 (fun item r => RateLimitData.new item = Ok r) l records.
Proof.
  induction 1 as [|item l (kwargs & -> & Hk) _ (records & Hrec & Hall)].
  - exists []. split; [reflexivity | constructor].
  - pose proof (RateLimitData_init_ok kwargs Hk) as Hinit.
    eexists (_ :: records). split.
    + simpl. rewrite Hinit. simpl. rewrite Hrec. reflexivity.
    + constructor; [exact Hinit | exact Hall].
Qed.

Lemma replace_resources_usage_array business_id l w :
  Forall usage_object l ->
  exists records,
    Forall2 (fun item r => RateLimitData.new item = Ok r) l records /\
    replace_resources (business_id, PList l) w =
    (resources_set (PList records) w, Ok tt).
Proof.
  intros Hl. destruct (comprehension_usage_objects l Hl) as (records & Hc & Hall).
  exists records. split; [exact Hall|].
  unfold replace_resources, mbind, M_bind, lift. simpl. rewrite Hc. reflexivity.
Qed.

Lemma for_each_app {O A} (l l' : list A) (body : A -> M O unit) w :
  for_each (l ++ l') body w =
  match for_each l body w with
  | (w', Ok _) => for_each l' body w'
  | (w', Raise e) => (w', Raise e)
  end.
Proof.
  revert w. induction l as [|x l IH]; intros w; simpl; [reflexivity|].
  unfold mbind, M_bind. destruct (body x w) as [w' [[]|e]]; [apply IH | reflexivity].
Qed.

(** Over well-formed arrays the loop returns, and whatever it did is
    erased by the next assignment to ["resources"]. *)
Lemma for_each_replace_resources d w :
  Forall (fun kv => usage_array kv.2) d ->
  exists w',
    for_each d replace_resources w = (w', Ok tt) /\
    forall v, resources_set v w' = resources_set v w.
Proof.
  intros Hd. revert w.
  induction Hd as [|[business_id items] d (l & Hitems & Hl) _ IH]; intros w.
  - exists w. split; reflexivity.
  - simpl in Hitems. subst items.
    destruct (replace_resources_usage_array business_id l w Hl)
      as (records & _ & Hstep).
    destruct (IH (resources_set (PList records) w)) as (w' & Hrun & Hset).
    exists w'. split.
    + cbn [for_each]. unfold mbind at 1. unfold M_bind.
      rewrite Hstep. exact Hrun.
    + intros v. rewrite Hset. apply resources_set_twice.
Qed.

Lemma parse_headers_delete_ne json_loads {O} (headers : headers_t) k key
    (w : world O) :
  k <> key ->
  RateLimit.parse_headers json_loads (delete k headers) key w =
  RateLimit.parse_headers json_loads headers key w.
Proof.
  intros Hne. unfold RateLimit.parse_headers.
  rewrite lookup_delete_ne by exact Hne. reflexivity.
Qed.

Lemma parse_headers_delete_eq json_loads {O} (headers : headers_t) key
    (w : world O) :
  RateLimit.parse_headers json_loads (delete key headers) key w = (w, Ok PNone).
Proof.
  unfold RateLimit.parse_headers. rewrite lookup_delete_eq. reflexivity.
Qed.

(** Without the business header, [set_limit] is its first half. *)
Lemma set_limit_without_business json_loads headers w :
  RateLimit.set_limit json_loads (delete "x-business-use-case-usage" headers) w =
  set_app_usage json_loads headers w.
Proof.
  rewrite set_limit_halves. unfold mbind at 1. unfold M_bind.
  assert (set_app_usage json_loads (delete "x-business-use-case-usage" headers) w
          = set_app_usage json_loads headers w) as ->.
  { unfold set_app_usage. unfold mbind at 1 3. unfold M_bind.
    rewrite parse_headers_delete_ne by discriminate. reflexivity. }
  destruct (set_app_usage json_loads headers w) as [w1 [[]|e]]; [|reflexivity].
  unfold set_business_usage. unfold mbind at 1. unfold M_bind.
  rewrite parse_headers_delete_eq. reflexivity.
Qed.

Lemma parse_headers_decoded json_loads {O} (headers : headers_t) key raw data
    (w : world O) :
  headers !! key = Some (PStr raw) -> raw <> "" -> json_loads raw = inl data ->
  RateLimit.parse_headers json_loads headers key w = (w, Ok data).
Proof.
  intros Hraw Hne Hdata. unfold RateLimit.parse_headers. rewrite Hraw. simpl.
  destruct (String.eqb_spec raw ""); [contradiction|]. simpl.
  unfold try_except, loads, mbind, M_bind. rewrite Hdata. reflexivity.
Qed.

(** What the loop over [business_usage.items()] amounts to.  Let the
    business header decode to a JSON object whose values are arrays of
    usage objects, and let [w1] be the state in which the [x-app-usage]
    half of the call leaves the tracker.  If the object is empty the call
    ends in [w1]: nothing is replaced.  Otherwise every pass of the loop
    overwrites ["resources"], so it ends as the list of records built from
    the array of the last business id alone, one per entry; the records of
    the earlier ids are lost, and so is the ["app"] record. *)
Theorem set_limit_business_keeps_last_array json_loads (headers : headers_t)
    (raw : string) (d : list (string * pyval))
    (w w1 : world RateLimit.instance) :
  headers !! "x-business-use-case-usage" = Some (PStr raw) ->
  raw <> "" ->
  json_loads raw = inl (PDict d) ->
  Forall (fun kv => usage_array kv.2) d ->
  RateLimit.set_limit json_loads
    (delete "x-business-use-case-usage" headers) w = (w1, Ok tt) ->
  (d = [] -> RateLimit.set_limit json_loads headers w = (w1, Ok tt)) /\
  (forall (d0 : list (string * pyval)) business_id l,
     d = (d0 ++ [(business_id, PList l)])%list ->
     exists records,
       Forall2 (fun item r => RateLimitData.new item = Ok r) l records /\
       RateLimit.set_limit json_loads headers w =
       (resources_set (PList records) w1, Ok tt)).
Proof.
  intros Hraw Hne Hd Hwf Happ.
  rewrite set_limit_without_business in Happ.
  assert (RateLimit.set_limit json_loads headers w =
          for_each d replace_resources w1) as ->.
  { rewrite set_limit_halves. unfold mbind at 1. unfold M_bind.
    rewrite Happ. unfold set_business_usage, mbind, M_bind.
    rewrite (parse_headers_decoded json_loads headers _ raw (PDict d))
      by assumption.
    reflexivity. }
  split.
  - intros ->. reflexivity.
  - intros d0 business_id l ->.
    apply Forall_app in Hwf as [Hd0 Hlast].
    apply Forall_cons in Hlast as [(l' & Hl' & Hl) _].
    simpl in Hl'. injection Hl' as <-.
    destruct (for_each_replace_resources d0 w1 Hd0) as (w' & Hrun & Hset).
    destruct (replace_resources_usage_array business_id l w' Hl)
      as (records & Hall & Hstep).
    exists records. split; [exact Hall|].
    rewrite for_each_app, Hrun. cbn [for_each].
    unfold mbind, M_bind. rewrite Hstep, Hset. reflexivity.
Qed.

Lemma set_limit_business_keeps_last_array_witness :
  exists records,
    Forall2 (fun item r => RateLimitData.new item = Ok r)
      [PDict [("call_count", PInt 2)]] records /\
    RateLimit.set_limit json.loads app_and_two_businesses fresh_RateLimit =
    (resources_set (PList records)
       (RateLimit.set_limit json.loads app_usage_15 fresh_RateLimit).1,
     Ok tt).
Proof.
  refine (proj2 (set_limit_business_keeps_last_array json.loads
            app_and_two_businesses
            (json.text "{'1': [{'call_count': 1}], '2': [{'call_count': 2}]}")
            [("1", PList [PDict [("call_count", PInt 1)]]);
             ("2", PList [PDict [("call_count", PInt 2)]])]
            fresh_RateLimit
            (RateLimit.set_limit json.loads app_usage_15 fresh_RateLimit).1
            _ _ _ _ _)
          [("1", PList [PDict [("call_count", PInt 1)]])] "2"
          [PDict [("call_count", PInt 2)]] eq_refl).
  - reflexivity.
  - discriminate.
  - reflexivity.
  - repeat constructor;
      eexists; (split; [reflexivity|]); repeat constructor;
      eexists; (split; [reflexivity|]); repeat constructor;
      apply bool_decide_eq_true; reflexivity.
  - vm_compute. reflexivity.
Defined.

(** C4 (the code does not do this).  With two business ids of one
    entry each, [set_limit] ends with the single record of the second id
    in ["resources"]: the loop never uses [business_id] and overwrites the
    mapping on every pass, so the mapping does not hold one record per
    array entry across all business ids. *)
Lemma set_limit_business_not_all_ids :
  RateLimit.__dict__
    (self (RateLimit.set_limit json.loads app_and_two_businesses
             fresh_RateLimit).1) !! "resources" =
    Some (PList [record_with_call_count 2]) /\
  ~ replaces_with_entries_of_all_ids json.loads.
Proof.
  split; [vm_compute; reflexivity|].
  intros Hclaim.
  specialize (Hclaim app_and_two_businesses
    (json.text "{'1': [{'call_count': 1}], '2': [{'call_count': 2}]}")
    [("1", PList [PDict [("call_count", PInt 1)]]);
     ("2", PList [PDict [("call_count", PInt 2)]])]
    [record_with_call_count 1; record_with_call_count 2]
    fresh_RateLimit eq_refl eq_refl eq_refl).
  vm_compute in Hclaim. discriminate Hclaim.
Qed.

(** With an empty business object the ["app"] record set by the same
    call stays where it is. *)
Example set_limit_empty_business_keeps_app :
  RateLimit.__dict__
    (self (RateLimit.set_limit json.loads
             (<["x-business-use-case-usage" := PStr "{}"]> app_usage_15)
             fresh_RateLimit).1) !! "resources" =
  Some (PDict [("app", record_with_call_count 15)]).
Proof. vm_compute. reflexivity. Qed.

(** Once ["resources"] is a list, a later [x-app-usage] update raises:
    the list cannot be indexed by ["app"]. *)
Example set_limit_app_after_business_raises :
  (RateLimit.set_limit json.loads app_usage_15
     (RateLimit.set_limit json.loads app_and_two_businesses
        fresh_RateLimit).1).2 = Raise TypeError.
Proof. vm_compute. reflexivity. Qed.

(** ** [InstagramRateLimit.set_limit] *)

Section InstagramSetLimit.
Variable json_loads : string -> pyval + string.
Variables (headers : headers_t) (instagram_business_id : string) (now : Z).
Variable w : world InstagramRateLimit.instance.

(** No header, or an empty one: the guard skips the whole update. *)
Lemma set_limit_header_falsy :
  match headers !! "x-business-use-case-usage" with
  | Some usage => py_bool usage = false
  | None => True
  end ->
  InstagramRateLimit.set_limit json_loads headers instagram_business_id now w =
  (w, Ok tt).
Proof.
  unfold InstagramRateLimit.set_limit.
  destruct (headers !! "x-business-use-case-usage") as [usage|];
    [intros ->|]; reflexivity.
Qed.

Lemma set_limit_header_truthy usage :
  headers !! "x-business-use-case-usage" = Some usage ->
  py_bool usage = true ->
  InstagramRateLimit.set_limit json_loads headers instagram_business_id now w =
  (data ← select_usage json_loads usage instagram_business_id;
   store_usage now data) w.
Proof.
  intros Hh Hb. unfold InstagramRateLimit.set_limit.
  rewrite Hh, Hb. reflexivity.
Qed.

Lemma py_bool_nonempty raw : raw <> "" -> py_bool (PStr raw) = true.
Proof. intros H. simpl. destruct (String.eqb_spec raw ""); [contradiction|reflexivity]. Qed.

(** A record with the four keys and a numeric waiting time is stored
    field by field. *)
Lemma store_usage_record kwargs c p t e eta w0 :
  dict_lookup "call_count" kwargs = Some c ->
  dict_lookup "total_cputime" kwargs = Some p ->
  dict_lookup "total_time" kwargs = Some t ->
  dict_lookup "estimated_time_to_regain_access" kwargs = Some e ->
  as_num e = Some eta ->
  store_usage now (PDict kwargs) w0 =
  (usage_stored c p t (PInt (now + eta)) w0, Ok tt).
Proof.
  intros Hc Hp Ht He Heta.
  unfold store_usage, mbind, M_bind, lift. simpl.
  rewrite Hc, Hp, Ht, He. simpl.
  unfold py_add. rewrite Heta.
  destruct e; simpl in Heta; try discriminate; reflexivity.
Qed.

Lemma store_default_usage w0 :
  store_usage now InstagramRateLimit.default_usage w0 =
  (usage_stored (PInt 0) (PInt 0) (PInt 0) (PInt now) w0, Ok tt).
Proof.
  unfold InstagramRateLimit.default_usage.
  rewrite (store_usage_record _ (PInt 0) (PInt 0) (PInt 0) (PInt 0) 0)
    by reflexivity.
  rewrite Z.add_0_r. reflexivity.
Qed.

(** The record selected in each case. *)
Lemma select_usage_invalid_json raw msg :
  json_loads raw = inr msg ->
  select_usage json_loads (PStr raw) instagram_business_id w =
  (cannot_get_logged instagram_business_id (PStr raw) w,
   Ok InstagramRateLimit.default_usage).
Proof.
  intros H. unfold select_usage, try_except, loads, mbind, M_bind.
  rewrite H. reflexivity.
Qed.

Lemma select_usage_not_text usage :
  (forall s, usage <> PStr s) ->
  select_usage json_loads usage instagram_business_id w =
  (cannot_get_logged instagram_business_id usage w,
   Ok InstagramRateLimit.default_usage).
Proof.
  intros H. unfold select_usage, try_except, loads, mbind, M_bind.
  destruct usage; try reflexivity. exfalso. eapply H. reflexivity.
Qed.

Lemma select_usage_id_absent raw d :
  json_loads raw = inl (PDict d) ->
  dict_lookup instagram_business_id d = None ->
  select_usage json_loads (PStr raw) instagram_business_id w =
  (w, Ok InstagramRateLimit.default_usage).
Proof.
  intros H Hid. unfold select_usage, try_except, loads, mbind, M_bind.
  rewrite H. simpl. rewrite Hid. reflexivity.
Qed.

Lemma select_usage_first raw d first rest :
  json_loads raw = inl (PDict d) ->
  dict_lookup instagram_business_id d = Some (PList (first :: rest)) ->
  select_usage json_loads (PStr raw) instagram_business_id w = (w, Ok first).
Proof.
  intros H Hid. unfold select_usage, try_except, loads, mbind, M_bind.
  rewrite H. simpl. rewrite Hid. reflexivity.
Qed.

(** An entity mapped to a number, a boolean or [null] cannot be
    indexed; that [TypeError] is caught. *)
Lemma select_usage_not_subscriptable raw d entry :
  json_loads raw = inl (PDict d) ->
  dict_lookup instagram_business_id d = Some entry ->
  match entry with PNone | PBool _ | PInt _ => True | _ => False end ->
  select_usage json_loads (PStr raw) instagram_business_id w =
  (cannot_get_logged instagram_business_id (PStr raw) w,
   Ok InstagramRateLimit.default_usage).
Proof.
  intros H Hid He. unfold select_usage, try_except, loads, mbind, M_bind.
  rewrite H. simpl. rewrite Hid.
  destruct entry; try contradiction; reflexivity.
Qed.

End InstagramSetLimit.

(** C6, as amended.  With the header present and non-empty, [set_limit]
    stores [call_count], [total_cputime] and [total_time] verbatim from
    the first element of the entity's usage array and sets
    [reset_at = now + estimated_time_to_regain_access], whatever was there
    before; when the header is not valid JSON (which is logged), or the
    decoded object has no entry for the entity, it stores the zero-usage
    record and [reset_at = now]; when the header is missing or empty it
    leaves the tracker as it was. *)
Theorem Instagram_set_limit_cases json_loads (headers : headers_t)
    (instagram_business_id : string) (now : Z)
    (w : world InstagramRateLimit.instance) :
  let set_limit :=
    InstagramRateLimit.set_limit json_loads headers instagram_business_id now w in
  let header := headers !! "x-business-use-case-usage" in
  (header = None \/ header = Some (PStr "") -> set_limit = (w, Ok tt)) /\
  (forall raw msg,
     header = Some (PStr raw) -> raw <> "" -> json_loads raw = inr msg ->
     set_limit =
     (usage_stored (PInt 0) (PInt 0) (PInt 0) (PInt now)
        (cannot_get_logged instagram_business_id (PStr raw) w), Ok tt)) /\
  (forall raw d,
     header = Some (PStr raw) -> raw <> "" -> json_loads raw = inl (PDict d) ->
     dict_lookup instagram_business_id d = None ->
     set_limit =
     (usage_stored (PInt 0) (PInt 0) (PInt 0) (PInt now) w, Ok tt)) /\
  (forall raw d first rest c p t e eta,
     header = Some (PStr raw) -> raw <> "" -> json_loads raw = inl (PDict d) ->
     dict_lookup instagram_business_id d = Some (PList (PDict first :: rest)) ->
     dict_lookup "call_count" first = Some c ->
     dict_lookup "total_cputime" first = Some p ->
     dict_lookup "total_time" first = Some t ->
     dict_lookup "estimated_time_to_regain_access" first = Some e ->
     as_num e = Some eta ->
     set_limit = (usage_stored c p t (PInt (now + eta)) w, Ok tt)).
Proof.
  intros set_limit header. subst set_limit header. repeat split.
  - intros H. apply set_limit_header_falsy.
    destruct H as [-> | ->]; reflexivity.
  - intros raw msg Hh Hne Hmsg.
    rewrite (set_limit_header_truthy _ _ _ _ _ _ Hh (py_bool_nonempty _ Hne)).
    unfold mbind at 1. unfold M_bind.
    rewrite (select_usage_invalid_json _ _ _ _ _ Hmsg).
    apply store_default_usage.
  - intros raw d Hh Hne Hd Hid.
    rewrite (set_limit_header_truthy _ _ _ _ _ _ Hh (py_bool_nonempty _ Hne)).
    unfold mbind at 1. unfold M_bind.
    rewrite (select_usage_id_absent _ _ _ _ _ Hd Hid).
    apply store_default_usage.
  - intros raw d first rest c p t e eta Hh Hne Hd Hid Hc Hp Ht He Heta.
    rewrite (set_limit_header_truthy _ _ _ _ _ _ Hh (py_bool_nonempty _ Hne)).
    unfold mbind at 1. unfold M_bind.
    rewrite (select_usage_first _ _ _ _ _ _ _ Hd Hid).
    eapply store_usage_record; eassumption.
Qed.

Lemma Instagram_set_limit_cases_witness :
  InstagramRateLimit.set_limit json.loads ∅ "123" 1000 used_Instagram =
    (used_Instagram, Ok tt) /\
  InstagramRateLimit.set_limit json.loads
    ({[ "x-business-use-case-usage" := PStr "not-json" ]} : headers_t)
    "123" 1000 used_Instagram =
    (usage_stored (PInt 0) (PInt 0) (PInt 0) (PInt 1000)
       (cannot_get_logged "123" (PStr "not-json") used_Instagram), Ok tt) /\
  InstagramRateLimit.set_limit json.loads usage_123 "456" 1000 used_Instagram =
    (usage_stored (PInt 0) (PInt 0) (PInt 0) (PInt 1000) used_Instagram, Ok tt) /\
  InstagramRateLimit.set_limit json.loads usage_123 "123" 1000 used_Instagram =
    (usage_stored (PInt 95) (PInt 10) (PInt 10) (PInt (1000 + 120))
       used_Instagram, Ok tt).
Proof.
  split; [|split; [|split]].
  - apply (Instagram_set_limit_cases json.loads ∅ "123" 1000 used_Instagram).
    left. reflexivity.
  - eapply (Instagram_set_limit_cases json.loads
             ({[ "x-business-use-case-usage" := PStr "not-json" ]} : headers_t)
             "123" 1000 used_Instagram);
      [reflexivity | discriminate | reflexivity].
  - eapply (Instagram_set_limit_cases json.loads usage_123 "456" 1000
              used_Instagram);
      [reflexivity | discriminate | reflexivity | reflexivity].
  - eapply (Instagram_set_limit_cases json.loads usage_123 "123" 1000
              used_Instagram);
      [reflexivity | discriminate | reflexivity | reflexivity
      | reflexivity | reflexivity | reflexivity | reflexivity | reflexivity].
Defined.

(** C6, as stated, fails: without the header a tracker at 95% with
    reset time 500 is still at 95% with reset time 500 after
    [set_limit] at time 1000. *)
Lemma Instagram_set_limit_missing_header_keeps_state :
  InstagramRateLimit.set_limit json.loads ∅ "123" 1000 used_Instagram =
    (used_Instagram, Ok tt) /\
  InstagramRateLimit.call_count (self used_Instagram) = PInt 95 /\
  InstagramRateLimit.reset_at (self used_Instagram) = PInt 500 /\
  ~ missing_header_stores_zero_usage json.loads.
Proof.
  split; [reflexivity|]. split; [reflexivity|]. split; [reflexivity|].
  intros Hclaim.
  destruct (Hclaim ∅ "123" 1000 used_Instagram (lookup_empty _)) as (Hc & _).
  vm_compute in Hc. discriminate Hc.
Qed.

(** ** [InstagramRateLimit.get_sleep_interval] *)

Lemma py_max_ints (a b c : Z) :
  py_max (PInt a) (PInt b) (PInt c) = Ok (PInt (Z.max a (Z.max b c))).
Proof.
  unfold py_max, py_gt, mbind, result_bind. simpl.
  destruct (Z.ltb_spec a b); simpl;
    [destruct (Z.ltb_spec b c) | destruct (Z.ltb_spec a c)];
    do 2 f_equal; lia.
Qed.

(** C7.  With integer attributes, [get_sleep_interval()] returns exactly
    [reset_at - now] (and logs it) when [reset_at] is later than the
    current time, and otherwise is [get_interval] of the largest of
    [call_count], [total_time], [total_cputime]. *)
Theorem Instagram_get_sleep_interval_cases (now r c t p : Z)
    (w : world InstagramRateLimit.instance) :
  InstagramRateLimit.reset_at (self w) = PInt r ->
  InstagramRateLimit.call_count (self w) = PInt c ->
  InstagramRateLimit.total_time (self w) = PInt t ->
  InstagramRateLimit.total_cputime (self w) = PInt p ->
  (now < r ->
   InstagramRateLimit.get_sleep_interval now w =
   (still_limited_logged (PInt (r - now)) w, Ok (PInt (r - now)))) /\
  (r <= now ->
   InstagramRateLimit.get_sleep_interval now w =
   get_interval (PInt (Z.max c (Z.max t p))) w).
Proof.
  destruct w as [[ty c' p' t' r'] lg]. simpl. intros -> -> -> ->.
  cbv beta iota zeta delta
    [InstagramRateLimit.get_sleep_interval get_self mbind M_bind py_if py_gt
     lift self InstagramRateLimit.reset_at InstagramRateLimit.call_count
     InstagramRateLimit.total_time InstagramRateLimit.total_cputime].
  rewrite py_max_ints. simpl (py_lt _ _).
  split; intros Hcmp.
  - destruct (Z.ltb_spec now r); [|lia]. reflexivity.
  - destruct (Z.ltb_spec now r); [lia|]. reflexivity.
Qed.

(** The specification's example: after [set_limit] at time 1000 with
    entity ["123"] at 95% and 120 seconds to regain access,
    [get_sleep_interval()] returns 120 at time 1000, 119 one second
    later, and 600 from time 1120 on. *)
Lemma Instagram_get_sleep_interval_cases_witness :
  let w := (InstagramRateLimit.set_limit json.loads usage_123 "123" 1000
              fresh_Instagram).1 in
  (InstagramRateLimit.get_sleep_interval 1000 w).2 = Ok (PInt 120) /\
  (InstagramRateLimit.get_sleep_interval 1001 w).2 = Ok (PInt 119) /\
  (InstagramRateLimit.get_sleep_interval 1120 w).2 = Ok (PInt 600).
Proof.
  intros w.
  assert (forall now,
    (now < 1120 ->
     InstagramRateLimit.get_sleep_interval now w =
     (still_limited_logged (PInt (1120 - now)) w, Ok (PInt (1120 - now)))) /\
    (1120 <= now ->
     InstagramRateLimit.get_sleep_interval now w =
     get_interval (PInt (Z.max 95 (Z.max 10 10))) w)) as H.
  { intros now.
    apply (Instagram_get_sleep_interval_cases now 1120 95 10 10 w);
      reflexivity. }
  split; [|split].
  - rewrite (proj1 (H 1000)) by lia. reflexivity.
  - rewrite (proj1 (H 1001)) by lia. reflexivity.
  - rewrite (proj2 (H 1120)) by lia. reflexivity.
Defined.

(** * Further properties of the module *)

(** ** [get_interval]: range, logging, rejected arguments *)

(** X1.  On a number [get_interval] returns one of the six intervals of
    the table, so at least 1 and at most 1200 seconds. *)
Theorem get_interval_range {O} (usage_count : pyval) (u : Z) (w : world O) :
  as_num usage_count = Some u ->
  exists interval : Z,
    (get_interval usage_count w).2 = Ok (PInt interval) /\
    interval ∈ [1; 3; 5; 300; 600; 1200] /\
    1 <= interval <= 1200.
Proof.
  intros H. eexists. split; [apply get_interval_value, H|].
  repeat lazymatch goal with
         | |- context [?a <? ?b] => destruct (a <? b)
         end;
    (split; [set_solver | lia]).
Qed.

Lemma get_interval_range_witness :
  exists interval : Z,
    (get_interval (PBool true) (World tt [])).2 = Ok (PInt interval) /\
    1 <= interval <= 1200.
Proof.
  destruct (get_interval_range (PBool true) 1 (World tt []) eq_refl)
    as (i & Hrun & _ & Hb).
  exists i. split; assumption.
Defined.

(** X2.  [get_interval] never touches [self]; it appends exactly one
    DEBUG record, holding the usage and the chosen interval, when the usage
    is at least 80 and not 100, and logs nothing otherwise. *)
Theorem get_interval_logging {O} (usage_count : pyval) (u : Z) (w : world O) :
  as_num usage_count = Some u ->
  (80 <= u /\ u <> 100 ->
   exists interval,
     get_interval usage_count w =
     (usage_logged usage_count interval w, Ok interval)) /\
  (u < 80 \/ u = 100 -> (get_interval usage_count w).1 = w).
Proof.
  intros H. unfold get_interval, py_if.
  rewrite !(py_lt_num usage_count u), (py_gt_num usage_count u) by exact H.
  split; intros Hu;
    repeat lazymatch goal with
           | |- context [?a <? ?b] => destruct (Z.ltb_spec a b); try lia
           end;
    try (eexists; reflexivity); try reflexivity.
Qed.

Lemma get_interval_logging_witness :
  exists interval,
    get_interval (PInt 85) (World tt []) =
    (usage_logged (PInt 85) interval (World tt []), Ok interval).
Proof.
  apply (get_interval_logging (PInt 85) 85 (World tt []) eq_refl). lia.
Defined.

(** X3.  An argument that is not a number ([None], a [str], a list, a
    dict, a [RateLimitData]) makes the first comparison raise: [TypeError],
    nothing logged. *)
Theorem get_interval_rejects_non_numbers {O} (usage_count : pyval)
    (w : world O) :
  as_num usage_count = None ->
  get_interval usage_count w = (w, Raise TypeError).
Proof. apply get_interval_not_num. Qed.

Lemma get_interval_rejects_non_numbers_witness :
  get_interval (PStr "95") (World tt []) = (World tt [], Raise TypeError).
Proof.
  apply (get_interval_rejects_non_numbers (PStr "95") (World tt [])).
  reflexivity.
Defined.

(** ** [RateLimitData]: which arguments are accepted *)

Lemma RateLimitData_init_unknown_key kwargs :
  ~ Forall (fun k => k ∈ RateLimitData.fields) kwargs.*1 ->
  RateLimitData.__init__ kwargs = Raise TypeError.
Proof.
  intros H. unfold RateLimitData.__init__.
  destruct (forallb _ _) eqn:E; [|reflexivity].
  exfalso. apply H. apply Forall_forall. intros k Hk.
  rewrite forallb_forall in E.
  eapply bool_decide_eq_true, E, list_elem_of_In, Hk.
Qed.

(** X4.  [RateLimitData( **obj )] succeeds exactly on a mapping whose keys
    are all field names, and then gives the record of those keywords;
    on any other value (an unknown key, or no mapping at all) it raises
    [TypeError]. *)
Theorem RateLimitData_new_accepts (obj : pyval) :
  (forall kwargs,
     obj = PDict kwargs ->
     Forall (fun k => k ∈ RateLimitData.fields) kwargs.*1 ->
     RateLimitData.new obj = Ok (record_of_kwargs kwargs)) /\
  (~ usage_object obj -> RateLimitData.new obj = Raise TypeError).
Proof.
  split.
  - intros kwargs -> H. apply RateLimitData_init_ok, H.
  - intros H. destruct obj; try reflexivity.
    simpl. apply RateLimitData_init_unknown_key.
    intros Hk. apply H. exists d. split; [reflexivity | exact Hk].
Qed.

Lemma RateLimitData_new_accepts_witness :
  RateLimitData.new (PDict [("call_count", PInt 1); ("limit", PInt 9)]) =
  Raise TypeError.
Proof.
  apply (RateLimitData_new_accepts
           (PDict [("call_count", PInt 1); ("limit", PInt 9)])).
  intros (kwargs & Heq & Hk). injection Heq as <-.
  apply Forall_cons in Hk as [_ Hk]. apply Forall_cons in Hk as [Hk _].
  simpl in Hk.
  exact (bool_decide_eq_false_1 ("limit" ∈ RateLimitData.fields) eq_refl Hk).
Defined.

(** ** [parse_headers]: the paths that log nothing *)

Lemma parse_headers_self json_loads {O} (headers : headers_t) key (w : world O) :
  self (RateLimit.parse_headers json_loads headers key w).1 = self w.
Proof.
  unfold RateLimit.parse_headers, try_except, loads, mbind, M_bind.
  destruct (headers !! key) as [usage|]; [|reflexivity].
  destruct (py_bool usage); [|reflexivity].
  destruct usage; try reflexivity.
  destruct (json_loads s); reflexivity.
Qed.

(** X5.  A non-empty text header that decodes is returned decoded, with
    the tracker and the log untouched; a header whose value is falsy (the
    empty string, [0], an empty list) is never decoded and gives [None],
    again without a log record. *)
Theorem parse_headers_quiet_paths json_loads {O} (headers : headers_t)
    (key : string) (w : world O) :
  (forall raw data,
     headers !! key = Some (PStr raw) -> raw <> "" ->
     json_loads raw = inl data ->
     RateLimit.parse_headers json_loads headers key w = (w, Ok data)) /\
  (forall usage,
     headers !! key = Some usage -> py_bool usage = false ->
     RateLimit.parse_headers json_loads headers key w = (w, Ok PNone)).
Proof.
  split.
  - intros raw data. apply parse_headers_decoded.
  - intros usage Hh Hb. unfold RateLimit.parse_headers.
    rewrite Hh, Hb. reflexivity.
Qed.

Lemma parse_headers_quiet_paths_witness :
  RateLimit.parse_headers json.loads app_usage_15 "x-app-usage"
    fresh_RateLimit =
  (fresh_RateLimit,
   Ok (PDict [("call_count", PInt 15); ("total_cputime", PInt 0);
              ("total_time", PInt 0)])).
Proof.
  eapply (parse_headers_quiet_paths json.loads app_usage_15 "x-app-usage"
            fresh_RateLimit);
    [reflexivity | discriminate | reflexivity].
Defined.

(** ** [RateLimit.set_limit]: what it writes and when it raises *)

(** X6.  Whatever the headers, and whether it returns or raises,
    [set_limit] leaves every entry of the instance [__dict__] other than
    ["resources"] as it was; the [_type] given to [__init__] survives. *)
Theorem RateLimit_set_limit_writes_only_resources json_loads
    (headers : headers_t) (w : world RateLimit.instance) (k : string) :
  k <> "resources" ->
  RateLimit.__dict__ (self (RateLimit.set_limit json_loads headers w).1) !! k =
  RateLimit.__dict__ (self w) !! k.
Proof. intros H. apply frames_set_limit, H. Qed.

Lemma RateLimit_set_limit_writes_only_resources_witness :
  RateLimit.__dict__
    (self (RateLimit.set_limit json.loads app_and_two_businesses
             (World (RateLimit.__init__ (PStr "page")) [])).1) !! "_type" =
  Some (PStr "page").
Proof.
  rewrite (RateLimit_set_limit_writes_only_resources json.loads
             app_and_two_businesses
             (World (RateLimit.__init__ (PStr "page")) []) "_type")
    by discriminate.
  reflexivity.
Defined.

Lemma parse_headers_unusable json_loads {O} (headers : headers_t) key
    (w : world O) :
  unusable json_loads (headers !! key) ->
  (RateLimit.parse_headers json_loads headers key w).2 = Ok PNone.
Proof.
  unfold unusable, RateLimit.parse_headers, try_except, loads, mbind, M_bind.
  destruct (headers !! key) as [usage|]; [|reflexivity].
  intros [Hb | [Hns | (s & -> & Hs)]].
  - rewrite Hb. reflexivity.
  - destruct (py_bool usage); [|reflexivity].
    destruct usage; try reflexivity. exfalso. eapply Hns. reflexivity.
  - destruct (py_bool (PStr s)); [|reflexivity].
    destruct Hs as [-> | (msg & ->)]; reflexivity.
Qed.

(** The log only grows under [parse_headers], by at most one record,
    and that record is an error record of the parser. *)
Lemma parse_headers_log json_loads {O} (headers : headers_t) key (w : world O) :
  exists errors : list log_record,
    log (RateLimit.parse_headers json_loads headers key w).1 =
      (log w ++ errors)%list /\
    Forall (fun r => level r = ERROR /\ template r = parse_error_template)
      errors /\
    (length errors <= 1)%nat.
Proof.
  assert (exists errors : list log_record,
            log w = (log w ++ errors)%list /\
            Forall (fun r => level r = ERROR /\ template r = parse_error_template)
              errors /\
            (length errors <= 1)%nat) as Hnil.
  { exists []. rewrite app_nil_r. repeat split; [constructor | simpl; lia]. }
  unfold RateLimit.parse_headers, try_except, loads, mbind, M_bind.
  destruct (headers !! key) as [usage|]; [|exact Hnil].
  destruct (py_bool usage); [|exact Hnil].
  destruct usage; try exact Hnil;
    try (eexists [_]; split; [reflexivity|];
         split; [repeat constructor | simpl; lia]).
  destruct (json_loads s); [exact Hnil|].
  eexists [_]. split; [reflexivity|].
  split; [repeat constructor | simpl; lia].
Qed.

(** X7.  When neither usage header yields a value (each absent, falsy,
    undecodable or [null]) [set_limit] returns normally and the tracker is
    exactly as before; the log is the old log followed by at most two
    records, each an error record of [parse_headers]. *)
Theorem RateLimit_set_limit_without_usage json_loads (headers : headers_t)
    (w : world RateLimit.instance) :
  unusable json_loads (headers !! "x-app-usage") ->
  unusable json_loads (headers !! "x-business-use-case-usage") ->
  (RateLimit.set_limit json_loads headers w).2 = Ok tt /\
  self (RateLimit.set_limit json_loads headers w).1 = self w /\
  exists errors : list log_record,
    log (RateLimit.set_limit json_loads headers w).1 = (log w ++ errors)%list /\
    Forall (fun r => level r = ERROR /\ template r = parse_error_template)
      errors /\
    (length errors <= 2)%nat.
Proof.
  intros Ha Hb. unfold RateLimit.set_limit, mbind, M_bind.
  pose proof (parse_headers_unusable json_loads headers _ w Ha) as Hra.
  pose proof (parse_headers_self json_loads headers "x-app-usage" w) as Hsa.
  destruct (parse_headers_log json_loads headers "x-app-usage" w)
    as (e1 & Hl1 & He1 & Hn1).
  destruct (RateLimit.parse_headers json_loads headers "x-app-usage" w)
    as [w1 r1]. simpl in Hra, Hsa, Hl1. subst r1. simpl.
  pose proof (parse_headers_unusable json_loads headers _ w1 Hb) as Hrb.
  pose proof (parse_headers_self json_loads headers
                "x-business-use-case-usage" w1) as Hsb.
  destruct (parse_headers_log json_loads headers
              "x-business-use-case-usage" w1) as (e2 & Hl2 & He2 & Hn2).
  destruct (RateLimit.parse_headers json_loads headers
              "x-business-use-case-usage" w1) as [w2 r2].
  simpl in Hrb, Hsb, Hl2. subst r2. simpl.
  split; [reflexivity|]. split; [congruence|].
  exists (e1 ++ e2)%list. split; [|split].
  - rewrite Hl2, Hl1, app_assoc. reflexivity.
  - apply Forall_app. split; assumption.
  - rewrite length_app. lia.
Qed.

Lemma RateLimit_set_limit_without_usage_witness :
  let headers : headers_t :=
    <["x-business-use-case-usage" := PStr "null"]>
      {[ "x-app-usage" := PStr "not-json" ]} in
  let w := (RateLimit.set_limit json.loads app_usage_15 fresh_RateLimit).1 in
  (RateLimit.set_limit json.loads headers w).2 = Ok tt /\
  self (RateLimit.set_limit json.loads headers w).1 = self w /\
  exists errors : list log_record,
    log (RateLimit.set_limit json.loads headers w).1 = (log w ++ errors)%list /\
    Forall (fun r => level r = ERROR /\ template r = parse_error_template)
      errors /\
    (length errors <= 2)%nat.
Proof.
  intros headers w.
  apply (RateLimit_set_limit_without_usage json.loads headers w).
  - right. right. exists "not-json". split; [reflexivity|].
    right. eexists. reflexivity.
  - right. right. exists "null". split; [reflexivity|].
    left. reflexivity.
Defined.

Lemma dict_lookup_set_eq {V} k (v : V) d : dict_lookup k (dict_set k v d) = Some v.
Proof.
  induction d as [|[k' v'] d IH]; simpl.
  - rewrite String.eqb_refl. reflexivity.
  - destruct (String.eqb_spec k k') as [->|Hne]; simpl.
    + rewrite String.eqb_refl. reflexivity.
    + destruct (String.eqb_spec k k'); [contradiction | exact IH].
Qed.

Lemma dict_lookup_set_ne {V} k k' (v : V) d :
  k <> k' -> dict_lookup k' (dict_set k v d) = dict_lookup k' d.
Proof.
  intros Hne. induction d as [|[k0 v0] d IH]; simpl.
  - destruct (String.eqb_spec k' k); [congruence | reflexivity].
  - destruct (String.eqb_spec k k0) as [->|Hk]; simpl.
    + destruct (String.eqb_spec k' k0); [congruence | reflexivity].
    + destruct (String.eqb_spec k' k0); [reflexivity | exact IH].
Qed.

Lemma dict_getitem_present key v (w : world RateLimit.instance) :
  RateLimit.__dict__ (self w) !! key = Some v ->
  RateLimit.dict_getitem key w = (w, Ok v).
Proof.
  intros H. unfold RateLimit.dict_getitem, mbind, M_bind, get_self.
  rewrite H. reflexivity.
Qed.

Lemma set_app_usage_decoded json_loads (headers : headers_t) raw data w :
  headers !! "x-app-usage" = Some (PStr raw) -> raw <> "" ->
  json_loads raw = inl data -> is_None data = false ->
  set_app_usage json_loads headers w =
  (data' ← lift (RateLimitData.new data);
   resources ← RateLimit.dict_getitem "resources";
   resources ← lift (py_setitem_str resources "app" data');
   RateLimit.dict_setitem "resources" resources) w.
Proof.
  intros Hh Hne Hd Hn. unfold set_app_usage. unfold mbind at 1. unfold M_bind.
  rewrite (parse_headers_decoded json_loads headers _ raw data) by assumption.
  rewrite Hn. reflexivity.
Qed.

Lemma set_business_usage_absent json_loads (headers : headers_t) w :
  headers !! "x-business-use-case-usage" = None ->
  set_business_usage json_loads headers w = (w, Ok tt).
Proof.
  intros Hh. unfold set_business_usage, mbind, M_bind, RateLimit.parse_headers.
  rewrite Hh. reflexivity.
Qed.

(** X8.  With only a well-formed [x-app-usage] header, on a tracker whose
    ["resources"] is still a mapping, [set_limit] stores the new record
    under ["app"] (nothing of an earlier ["app"] record is merged in) and
    keeps every other scope of the mapping. *)
Theorem RateLimit_set_limit_app_replaces_record json_loads
    (headers : headers_t) raw kwargs d (w : world RateLimit.instance) :
  headers !! "x-app-usage" = Some (PStr raw) -> raw <> "" ->
  json_loads raw = inl (PDict kwargs) ->
  Forall (fun k => k ∈ RateLimitData.fields) kwargs.*1 ->
  headers !! "x-business-use-case-usage" = None ->
  RateLimit.__dict__ (self w) !! "resources" = Some (PDict d) ->
  exists d',
    RateLimit.set_limit json_loads headers w =
      (resources_set (PDict d') w, Ok tt) /\
    dict_lookup "app" d' = Some (record_of_kwargs kwargs) /\
    forall scope, scope <> "app" -> dict_lookup scope d' = dict_lookup scope d.
Proof.
  intros Hh Hne Hd Hk Hb Hres.
  exists (dict_set "app" (record_of_kwargs kwargs) d). split; [|split].
  - rewrite set_limit_halves. unfold mbind at 1. unfold M_bind.
    rewrite (set_app_usage_decoded json_loads headers raw (PDict kwargs))
      by (assumption || reflexivity).
    unfold mbind, M_bind, lift.
    cbn [RateLimitData.new]. rewrite (RateLimitData_init_ok kwargs Hk).
    rewrite (dict_getitem_present _ _ _ Hres). cbn [py_setitem_str].
    apply set_business_usage_absent, Hb.
  - apply dict_lookup_set_eq.
  - intros scope Hs. apply dict_lookup_set_ne. congruence.
Qed.

Lemma RateLimit_set_limit_app_replaces_record_witness :
  let w := (RateLimit.set_limit json.loads
              (app_header "{'call_count': 90, 'type': 'app'}")
              fresh_RateLimit).1 in
  exists d',
    RateLimit.set_limit json.loads app_usage_15 w =
      (resources_set (PDict d') w, Ok tt) /\
    dict_lookup "app" d' =
      Some (PRateLimitData (PInt 15) (PInt 0) (PInt 0) PNone PNone).
Proof.
  intros w.
  destruct (RateLimit_set_limit_app_replaces_record json.loads app_usage_15
              (json.text "{'call_count':15,'total_cputime':0,'total_time':0}")
              [("call_count", PInt 15); ("total_cputime", PInt 0);
               ("total_time", PInt 0)]
              [("app", PRateLimitData (PInt 90) (PInt 0) (PInt 0)
                         (PStr "app") PNone)] w)
    as (d' & Hrun & Happ & _).
  - reflexivity.
  - discriminate.
  - reflexivity.
  - repeat constructor; apply bool_decide_eq_true; reflexivity.
  - reflexivity.
  - reflexivity.
  - exists d'. split; [exact Hrun | exact Happ].
Defined.

Lemma RateLimitData_new_raises obj e :
  RateLimitData.new obj = Raise e -> e = TypeError.
Proof.
  destruct obj; simpl; try (intros [= <-]; reflexivity).
  unfold RateLimitData.__init__. destruct (forallb _ _); intros [= <-].
  reflexivity.
Qed.

(** X9.  Once ["resources"] is no longer a mapping (a business update
    has turned it into a list), every [set_limit] whose [x-app-usage]
    header decodes to a value other than [null] raises [TypeError] and
    leaves tracker and log as they were; the business header of that call
    is never looked at. *)
Theorem RateLimit_set_limit_app_on_list_raises json_loads
    (headers : headers_t) raw data resources (w : world RateLimit.instance) :
  headers !! "x-app-usage" = Some (PStr raw) -> raw <> "" ->
  json_loads raw = inl data -> data <> PNone ->
  RateLimit.__dict__ (self w) !! "resources" = Some resources ->
  (forall d, resources <> PDict d) ->
  RateLimit.set_limit json_loads headers w = (w, Raise TypeError).
Proof.
  intros Hh Hne Hd Hn Hres Hnd.
  rewrite set_limit_halves. unfold mbind at 1. unfold M_bind.
  rewrite (set_app_usage_decoded json_loads headers raw data)
    by (try assumption; destruct data; first [reflexivity | congruence]).
  unfold mbind, M_bind, lift.
  destruct (RateLimitData.new data) as [r|e] eqn:Hnew.
  - rewrite (dict_getitem_present _ _ _ Hres).
    destruct resources; try reflexivity. exfalso. eapply Hnd. reflexivity.
  - apply RateLimitData_new_raises in Hnew as ->. reflexivity.
Qed.

Lemma RateLimit_set_limit_app_on_list_raises_witness :
  let w := (RateLimit.set_limit json.loads app_and_two_businesses
              fresh_RateLimit).1 in
  RateLimit.set_limit json.loads app_usage_15 w = (w, Raise TypeError).
Proof.
  intros w.
  eapply (RateLimit_set_limit_app_on_list_raises json.loads app_usage_15
            (json.text "{'call_count':15,'total_cputime':0,'total_time':0}")
            _ (PList [record_with_call_count 2]) w).
  - reflexivity.
  - discriminate.
  - reflexivity.
  - discriminate.
  - reflexivity.
  - discriminate.
Defined.

(** X10.  A business header that decodes to anything but an object or
    [null] (an array, a string, a number, a boolean) raises
    [AttributeError]; the tracker is then in the state the [x-app-usage]
    half of the call produced, which is not rolled back. *)
Theorem RateLimit_set_limit_business_not_object json_loads
    (headers : headers_t) raw data (w w1 : world RateLimit.instance) :
  headers !! "x-business-use-case-usage" = Some (PStr raw) -> raw <> "" ->
  json_loads raw = inl data -> data <> PNone ->
  (forall d, data <> PDict d) ->
  RateLimit.set_limit json_loads
    (delete "x-business-use-case-usage" headers) w = (w1, Ok tt) ->
  RateLimit.set_limit json_loads headers w = (w1, Raise AttributeError).
Proof.
  intros Hh Hne Hd Hn Hnd Happ.
  rewrite set_limit_without_business in Happ.
  rewrite set_limit_halves. unfold mbind at 1. unfold M_bind.
  rewrite Happ. unfold set_business_usage, mbind, M_bind.
  rewrite (parse_headers_decoded json_loads headers _ raw data) by assumption.
  destruct data; try reflexivity; [congruence|].
  exfalso. eapply Hnd. reflexivity.
Qed.

Lemma RateLimit_set_limit_business_not_object_witness :
  RateLimit.set_limit json.loads
    (<["x-business-use-case-usage" := PStr "[]"]> app_usage_15)
    fresh_RateLimit =
  ((RateLimit.set_limit json.loads app_usage_15 fresh_RateLimit).1,
   Raise AttributeError).
Proof.
  eapply (RateLimit_set_limit_business_not_object json.loads
            (<["x-business-use-case-usage" := PStr "[]"]> app_usage_15)
            "[]" (PList []) fresh_RateLimit).
  - reflexivity.
  - discriminate.
  - reflexivity.
  - discriminate.
  - discriminate.
  - vm_compute. reflexivity.
Defined.

(** ** [InstagramRateLimit]: results, errors and what survives *)

Lemma ig_get_sleep_interval_ints now ty c p t r lg :
  InstagramRateLimit.get_sleep_interval now
    (World (InstagramRateLimit.Build ty (PInt c) (PInt p) (PInt t) (PInt r)) lg) =
  if now <? r then
    (still_limited_logged (PInt (r - now))
       (World (InstagramRateLimit.Build ty (PInt c) (PInt p) (PInt t) (PInt r)) lg),
     Ok (PInt (r - now)))
  else
    get_interval (PInt (Z.max c (Z.max t p)))
      (World (InstagramRateLimit.Build ty (PInt c) (PInt p) (PInt t) (PInt r)) lg).
Proof.
  cbv beta iota zeta delta
    [InstagramRateLimit.get_sleep_interval get_self mbind M_bind py_if py_gt
     lift self InstagramRateLimit.reset_at InstagramRateLimit.call_count
     InstagramRateLimit.total_time InstagramRateLimit.total_cputime].
  rewrite py_max_ints. simpl (py_lt _ _).
  destruct (now <? r); reflexivity.
Qed.

(** X11.  With integer attributes [get_sleep_interval()] always returns
    an integer of at least one second, whatever the clock reads, and it
    changes no attribute of the tracker. *)
Theorem Instagram_get_sleep_interval_positive (now r c t p : Z)
    (w : world InstagramRateLimit.instance) :
  InstagramRateLimit.reset_at (self w) = PInt r ->
  InstagramRateLimit.call_count (self w) = PInt c ->
  InstagramRateLimit.total_time (self w) = PInt t ->
  InstagramRateLimit.total_cputime (self w) = PInt p ->
  exists seconds : Z,
    (InstagramRateLimit.get_sleep_interval now w).2 = Ok (PInt seconds) /\
    1 <= seconds /\
    self (InstagramRateLimit.get_sleep_interval now w).1 = self w.
Proof.
  destruct w as [[ty c' p' t' r'] lg]. simpl. intros -> -> -> ->.
  rewrite ig_get_sleep_interval_ints.
  destruct (Z.ltb_spec now r).
  - exists (r - now). repeat split. lia.
  - rewrite get_interval_self.
    rewrite (get_interval_value _ (Z.max c (Z.max t p))) by reflexivity.
    eexists. split; [reflexivity|]. split; [|reflexivity].
    repeat lazymatch goal with
           | |- context [?a <? ?b] => destruct (a <? b)
           end; lia.
Qed.

Lemma Instagram_get_sleep_interval_positive_witness :
  exists seconds : Z,
    (InstagramRateLimit.get_sleep_interval (-5) fresh_Instagram).2 =
      Ok (PInt seconds) /\
    1 <= seconds.
Proof.
  destruct (Instagram_get_sleep_interval_positive (-5) 0 0 0 0 fresh_Instagram
              eq_refl eq_refl eq_refl eq_refl) as (s & Hrun & Hpos & _).
  exists s. split; assumption.
Defined.



(** X13.  The [TypeError]s the [try] block catches: a header value that
    is truthy but not text, and an entity mapped to a number, a boolean or
    [null].  Either is logged at DEBUG level and handled like undecodable
    text: the zero-usage record is stored and [reset_at] becomes the
    current time. *)
Theorem Instagram_set_limit_caught_type_errors json_loads
    (headers : headers_t) (instagram_business_id : string) (now : Z)
    (w : world InstagramRateLimit.instance) :
  (forall usage,
     headers !! "x-business-use-case-usage" = Some usage ->
     py_bool usage = true -> (forall s, usage <> PStr s) ->
     InstagramRateLimit.set_limit json_loads headers instagram_business_id
       now w =
     (usage_stored (PInt 0) (PInt 0) (PInt 0) (PInt now)
        (cannot_get_logged instagram_business_id usage w), Ok tt)) /\
  (forall raw d entry,
     headers !! "x-business-use-case-usage" = Some (PStr raw) -> raw <> "" ->
     json_loads raw = inl (PDict d) ->
     dict_lookup instagram_business_id d = Some entry ->
     match entry with PNone | PBool _ | PInt _ => True | _ => False end ->
     InstagramRateLimit.set_limit json_loads headers instagram_business_id
       now w =
     (usage_stored (PInt 0) (PInt 0) (PInt 0) (PInt now)
        (cannot_get_logged instagram_business_id (PStr raw) w), Ok tt)).
Proof.
  split.
  - intros usage Hh Hb Hns.
    rewrite (set_limit_header_truthy _ _ _ _ _ _ Hh Hb).
    unfold mbind at 1. unfold M_bind.
    rewrite (select_usage_not_text _ _ _ _ Hns).
    apply store_default_usage.
  - intros raw d entry Hh Hne Hd Hid He.
    rewrite (set_limit_header_truthy _ _ _ _ _ _ Hh (py_bool_nonempty raw Hne)).
    unfold mbind at 1. unfold M_bind.
    rewrite (select_usage_not_subscriptable _ _ _ _ _ _ Hd Hid He).
    apply store_default_usage.
Qed.

Lemma Instagram_set_limit_caught_type_errors_witness :
  InstagramRateLimit.set_limit json.loads
    (business_header "{'123': null}") "123" 1000 used_Instagram =
  (usage_stored (PInt 0) (PInt 0) (PInt 0) (PInt 1000)
     (cannot_get_logged "123" (PStr (json.text "{'123': null}"))
        used_Instagram), Ok tt).
Proof.
  eapply (Instagram_set_limit_caught_type_errors json.loads
            (business_header "{'123': null}") "123" 1000 used_Instagram);
    [reflexivity | discriminate | reflexivity | reflexivity | exact I].
Defined.

Lemma select_usage_raises json_loads raw data id e
    (w : world InstagramRateLimit.instance) :
  json_loads raw = inl data ->
  (entry ← py_get data id (PList [InstagramRateLimit.default_usage]);
   py_getitem_int entry 0) = Raise e ->
  TypeError_or_JSONDecodeError e = false ->
  select_usage json_loads (PStr raw) id w = (w, Raise e).
Proof.
  intros Hd Hsel He. revert Hsel.
  unfold select_usage, try_except, loads, mbind, M_bind, result_bind, lift,
    mret, M_ret.
  rewrite Hd.
  destruct (py_get data id (PList [InstagramRateLimit.default_usage]))
    as [entry|e']; intros Hsel.
  - rewrite Hsel, He. reflexivity.
  - injection Hsel as ->. rewrite He. reflexivity.
Qed.

Lemma set_limit_select_raises json_loads (headers : headers_t) id now usage e
    (w w' : world InstagramRateLimit.instance) :
  headers !! "x-business-use-case-usage" = Some usage ->
  py_bool usage = true ->
  select_usage json_loads usage id w = (w', Raise e) ->
  InstagramRateLimit.set_limit json_loads headers id now w = (w', Raise e).
Proof.
  intros Hh Hb Hsel. rewrite (set_limit_header_truthy _ _ _ _ _ _ Hh Hb).
  unfold mbind at 1. unfold M_bind. rewrite Hsel. reflexivity.
Qed.

(** X14.  The errors the [try] block lets through reach the caller
    before anything is assigned, so the tracker and the log are unchanged:
    a payload that is no JSON object ([null] included) raises
    [AttributeError], an entity mapped to an empty array raises
    [IndexError], an entity mapped to an object raises [KeyError]. *)
Theorem Instagram_set_limit_uncaught_errors json_loads
    (headers : headers_t) (instagram_business_id : string) (now : Z)
    raw data (w : world InstagramRateLimit.instance) :
  headers !! "x-business-use-case-usage" = Some (PStr raw) -> raw <> "" ->
  json_loads raw = inl data ->
  let set_limit :=
    InstagramRateLimit.set_limit json_loads headers instagram_business_id
      now w in
  ((forall d, data <> PDict d) -> set_limit = (w, Raise AttributeError)) /\
  (forall d,
     data = PDict d ->
     dict_lookup instagram_business_id d = Some (PList []) ->
     set_limit = (w, Raise IndexError)) /\
  (forall d inner,
     data = PDict d ->
     dict_lookup instagram_business_id d = Some (PDict inner) ->
     set_limit = (w, Raise KeyError)).
Proof.
  intros Hh Hne Hd set_limit. subst set_limit.
  pose proof (py_bool_nonempty raw Hne) as Hb.
  split; [|split].
  - intros Hnd. apply (set_limit_select_raises _ _ _ _ _ _ _ _ Hh Hb).
    apply (select_usage_raises json_loads raw data); try assumption;
      try reflexivity.
    destruct data; try reflexivity. exfalso. eapply Hnd. reflexivity.
  - intros d -> Hid. apply (set_limit_select_raises _ _ _ _ _ _ _ _ Hh Hb).
    apply (select_usage_raises json_loads raw (PDict d)); try assumption;
      try reflexivity.
    simpl. rewrite Hid. reflexivity.
  - intros d inner -> Hid.
    apply (set_limit_select_raises _ _ _ _ _ _ _ _ Hh Hb).
    apply (select_usage_raises json_loads raw (PDict d)); try assumption;
      try reflexivity.
    simpl. rewrite Hid. reflexivity.
Qed.

Lemma Instagram_set_limit_uncaught_errors_witness :
  InstagramRateLimit.set_limit json.loads (business_header "null") "123" 1000
    used_Instagram = (used_Instagram, Raise AttributeError).
Proof.
  eapply (Instagram_set_limit_uncaught_errors json.loads
            (business_header "null") "123" 1000 "null" PNone used_Instagram);
    [reflexivity | discriminate | reflexivity | discriminate].
Defined.

(** Induction on values, with the elements of a list and the values of
    a dict as induction hypotheses. *)
Lemma pyval_nested_ind (P : pyval -> Prop) :
  P PNone ->
  (forall b, P (PBool b)) ->
  (forall n, P (PInt n)) ->
  (forall s, P (PStr s)) ->
  (forall l, Forall P l -> P (PList l)) ->
  (forall d, Forall (fun kv => P kv.2) d -> P (PDict d)) ->
  (forall a1 a2 a3 a4 a5,
     P a1 -> P a2 -> P a3 -> P a4 -> P a5 -> P (PRateLimitData a1 a2 a3 a4 a5)) ->
  forall v, P v.
Proof.
  intros HN HB HI HS HL HD HR.
  refine (fix IH (v : pyval) : P v :=
            match v with
            | PNone => HN
            | PBool b => HB b
            | PInt n => HI n
            | PStr s => HS s
            | PList l =>
                HL l ((fix go (l : list pyval) : Forall P l :=
                         match l with
                         | [] => List.Forall_nil _
                         | x :: l' => List.Forall_cons _ x l' (IH x) (go l')
                         end) l)
            | PDict d =>
                HD d ((fix go (d : list (string * pyval))
                         : Forall (fun kv => P kv.2) d :=
                         match d with
                         | [] => List.Forall_nil _
                         | kv :: d' =>
                             List.Forall_cons (fun kv => P kv.2) kv d'
                               (IH kv.2) (go d')
                         end) d)
            | PRateLimitData a1 a2 a3 a4 a5 =>
                HR a1 a2 a3 a4 a5 (IH a1) (IH a2) (IH a3) (IH a4) (IH a5)
            end).
Qed.

(** A comparison that fails, fails with [TypeError]. *)
Lemma py_lt_raises a : forall b e, py_lt a b = Raise e -> e = TypeError.
Proof.
  induction a as [| | | |l IH|d _|a1 a2 a3 a4 a5 IH1 IH2 IH3 IH4 IH5]
    using pyval_nested_ind;
    intros v e; destruct v; simpl;
    try (intros H; inversion H; reflexivity).
  - revert l0. induction IH as [|x l Hx _ IHl]; intros [|y m];
      try discriminate.
    destruct (py_eq x y); [apply IHl | apply Hx].
  - repeat lazymatch goal with
           | |- context [negb (py_eq ?x ?y)] => destruct (py_eq x y); simpl
           end;
      try discriminate; eauto.
Qed.

(** A comparison between a number and a non-number fails; one that
    succeeds compares two numbers or two non-numbers. *)
Lemma py_lt_ok_kinds a b g :
  py_lt a b = Ok g -> (as_num a = None <-> as_num b = None).
Proof.
  destruct a, b; simpl; intros H; try discriminate;
    split; intros H'; try discriminate; reflexivity.
Qed.

Lemma py_max_non_number a b c :
  as_num a = None \/ as_num b = None \/ as_num c = None ->
  py_max a b c = Raise TypeError \/
  exists m, py_max a b c = Ok m /\ as_num m = None.
Proof.
  intros H. unfold py_max, py_gt, mbind, result_bind.
  destruct (py_lt a b) as [g|e] eqn:E1.
  - destruct (py_lt (if g then b else a) c) as [g'|e] eqn:E2.
    + right. eexists. split; [reflexivity|].
      apply py_lt_ok_kinds in E1, E2.
      assert (as_num a = None) as Ha.
      { destruct H as [H | [H | H]]; [exact H | tauto |].
        destruct g; tauto. }
      destruct g', g; tauto.
    + left. f_equal. eapply py_lt_raises, E2.
  - left. f_equal. eapply py_lt_raises, E1.
Qed.

(** X16.  [set_limit] stores usage values unchecked; if any of
    [call_count], [total_time], [total_cputime] is not a number (a JSON
    string such as ["95"], [null], a list) then, once [reset_at] has
    passed, [get_sleep_interval()] raises [TypeError], logging nothing. *)
Theorem Instagram_get_sleep_interval_non_number (now r : Z)
    (w : world InstagramRateLimit.instance) :
  InstagramRateLimit.reset_at (self w) = PInt r -> r <= now ->
  as_num (InstagramRateLimit.call_count (self w)) = None \/
  as_num (InstagramRateLimit.total_time (self w)) = None \/
  as_num (InstagramRateLimit.total_cputime (self w)) = None ->
  InstagramRateLimit.get_sleep_interval now w = (w, Raise TypeError).
Proof.
  intros Hr Hle Hn.
  unfold InstagramRateLimit.get_sleep_interval, get_self.
  cbv beta iota zeta delta [mbind M_bind py_if lift py_gt].
  rewrite Hr. simpl (py_lt _ _).
  destruct (Z.ltb_spec now r); [lia|].
  destruct (py_max_non_number _ _ _ Hn) as [-> | (m & -> & Hm)];
    [reflexivity|].
  apply get_interval_not_num, Hm.
Qed.

Lemma Instagram_get_sleep_interval_non_number_witness :
  let w := (InstagramRateLimit.set_limit json.loads
              (business_header
                 "{'17': [{'call_count': '95', 'total_cputime': 1, 'total_time': 2, 'estimated_time_to_regain_access': 0}]}")
              "17" 1000 fresh_Instagram).1 in
  InstagramRateLimit.get_sleep_interval 1000 w = (w, Raise TypeError).
Proof.
  intros w.
  apply (Instagram_get_sleep_interval_non_number 1000 1000 w).
  - reflexivity.
  - lia.
  - left. reflexivity.
Defined.

(** X17.  A header that does not decode, or that has no entry for the
    entity, erases what the tracker knew: whatever usage and reset time it
    held, a [get_sleep_interval()] at or after that [set_limit] returns the
    minimum, 1 second. *)
Theorem Instagram_unreadable_header_resets_advice json_loads
    (headers : headers_t) (instagram_business_id : string) (now0 now1 : Z)
    raw (w : world InstagramRateLimit.instance) :
  headers !! "x-business-use-case-usage" = Some (PStr raw) -> raw <> "" ->
  (exists msg, json_loads raw = inr msg) \/
  (exists d, json_loads raw = inl (PDict d) /\
             dict_lookup instagram_business_id d = None) ->
  now0 <= now1 ->
  (InstagramRateLimit.get_sleep_interval now1
     (InstagramRateLimit.set_limit json_loads headers instagram_business_id
        now0 w).1).2 = Ok (PInt 1).
Proof.
  intros Hh Hne Hcase Hle.
  rewrite (set_limit_header_truthy _ _ _ _ _ _ Hh (py_bool_nonempty raw Hne)).
  unfold mbind at 1. unfold M_bind.
  assert (exists w0,
            select_usage json_loads (PStr raw) instagram_business_id w =
            (w0, Ok InstagramRateLimit.default_usage)) as (w0 & ->).
  { destruct Hcase as [(msg & Hmsg) | (d & Hd & Hid)].
    - eexists. apply (select_usage_invalid_json _ _ _ _ msg), Hmsg.
    - eexists. eapply select_usage_id_absent; eassumption. }
  rewrite store_default_usage. unfold usage_stored. cbn [fst].
  rewrite ig_get_sleep_interval_ints.
  destruct (Z.ltb_spec now1 now0); [lia | reflexivity].
Qed.

Lemma Instagram_unreadable_header_resets_advice_witness :
  (InstagramRateLimit.get_sleep_interval 1001
     (InstagramRateLimit.set_limit json.loads
        ({[ "x-business-use-case-usage" := PStr "not-json" ]} : headers_t)
        "123" 1000
        (InstagramRateLimit.set_limit json.loads usage_123 "123" 990
           fresh_Instagram).1).1).2 = Ok (PInt 1).
Proof.
  eapply (Instagram_unreadable_header_resets_advice json.loads
            ({[ "x-business-use-case-usage" := PStr "not-json" ]} : headers_t)
            "123" 1000 1001 "not-json").
  - reflexivity.
  - discriminate.
  - left. eexists. reflexivity.
  - lia.
Defined.
